(** * The shopping cart engine (class [ShoppingCart])

    A shallow embedding of the cart / pricing engine of the snack shop
    front end: the line-item collection, the layered discounts, the tax,
    the persistence in [localStorage] and the reload on a [storage] event.

    Modelling conventions.
    - A JavaScript [number] that carries money or a rate is a binary64
      float (Rocq's primitive [float], IEEE 754 round-to-nearest-even, one
      NaN), so the arithmetic of [getTotals] is the arithmetic the browser
      performs.
    - A quantity is an integer ([Z]); it enters the float arithmetic through
      [Number_of_Z], the correctly rounded conversion (exact below 2^53).
    - A string is a [string] of ASCII characters; [trim] and [toUpperCase]
      act on the ASCII white space and the letters a-z.
    - An object is a record whose fields carry the names of its
      properties; an optional property is an [option].
    - A method is a computation in the monad [M]: it reads and writes the
      world (the engine instance [this], the [localStorage] entry of the
      cart, the notifications shown) and completes normally or by
      throwing. A throw keeps the writes made before it, as in JavaScript.
    - [JSON.parse (JSON.stringify v)] is taken to give back [v]: the
      entry of [localStorage] holds the value that was written. This is what
      JSON does on a value whose numbers are finite ([json_value]); the
      round trip through the storage is stated for such values. *)

From Stdlib Require Import ZArith List String Ascii Bool Lia.
From Stdlib Require Import Floats DecimalString.
From Stdlib Require DecimalPos.
Import ListNotations.

Set Warnings "-inexact-float".
Local Open Scope Z_scope.

(** ** Numbers, strings and identifiers *)

Definition number : Type := float.

(** The double nearest to an integer. *)
Definition Number_of_Z (z : Z) : number :=
  SF2Prim (binary_normalize prec emax z 0 false).

(** [ToBoolean] on a number: [0], [-0] and [NaN] are falsy. *)
Definition truthy (x : number) : bool :=
  negb (PrimFloat.eqb x 0 || PrimFloat.is_nan x).

(** The expression [x || 0] on a number. *)
Definition or_zero (x : number) : number :=
  if truthy x then x else 0%float.

(** The expression [x || 0] on an optional numeric property. *)
Definition opt_or_zero (x : option number) : number :=
  match x with
  | Some v => or_zero v
  | None => 0%float
  end.

(** The expression [s || ''] on an optional string property. *)
Definition or_empty (s : option string) : string :=
  match s with
  | Some v => v
  | None => EmptyString
  end.

(** [Math.max] of two numbers: NaN if either is, and [+0] above [-0]. *)
Definition Math_max (a b : number) : number :=
  if PrimFloat.is_nan a || PrimFloat.is_nan b then nan
  else if PrimFloat.ltb a b then b
  else if PrimFloat.ltb b a then a
  else if get_sign a then b else a.

(** A number that [x || 0] leaves as it is: truthy, or the zero [+0]. *)
Definition plain (x : number) : Prop :=
  truthy x = true \/ x = 0%float.

(** ASCII white space and line terminators, which [String.prototype.trim]
    removes at both ends. *)
Definition is_space (c : ascii) : bool :=
  let n := N_of_ascii c in
  ((9 <=? n) && (n <=? 13) || (n =? 32))%N.

Definition toUpperCase_ascii (c : ascii) : ascii :=
  let n := N_of_ascii c in
  if ((97 <=? n) && (n <=? 122))%N then ascii_of_N (n - 32) else c.

Fixpoint toUpperCase (s : string) : string :=
  match s with
  | EmptyString => EmptyString
  | String c r => String (toUpperCase_ascii c) (toUpperCase r)
  end.

Fixpoint trimStart (s : list ascii) : list ascii :=
  match s with
  | [] => []
  | c :: r => if is_space c then trimStart r else s
  end.

Definition trim (s : string) : string :=
  string_of_list_ascii
    (rev (trimStart (rev (trimStart (list_ascii_of_string s))))).

(** The [id] of a product as the catalogue hands it over: a string or a
    number. *)
Inductive primitive : Type :=
| IdString (s : string)
| IdNumber (n : Z).

(** [String(id)]. *)
Definition String_of (v : primitive) : string :=
  match v with
  | IdString s => s
  | IdNumber n => NilZero.string_of_int (Z.to_int n)
  end.

(** [ToBoolean] on an identifier: [''] and [0] are falsy. *)
Definition truthy_id (v : primitive) : bool :=
  match v with
  | IdString s => negb (String.eqb s EmptyString)
  | IdNumber n => negb (n =? 0)
  end.

(** [s === v] for a string [s]: no conversion, so a number is never equal
    to a string. *)
Definition strict_equal (s : string) (v : primitive) : bool :=
  match v with
  | IdString t => String.eqb s t
  | IdNumber _ => false
  end.

(** ** The data model *)

(** The product record of the catalogue boundary. *)
Module Product.
Record t : Type := mk {
  id : option primitive;
  name : option string;
  price : number;
  imageUrl : option string;
  category : option string;
  discount : option number
}.
End Product.

(** An entry of [this.items]. *)
Module LineItem.
Record t : Type := mk {
  id : string;
  name : option string;
  price : number;
  quantity : Z;
  imageUrl : string;
  category : string;
  discount : number
}.

Definition with_quantity (q : Z) (item : t) : t :=
  mk (id item) (name item) (price item) q
     (imageUrl item) (category item) (discount item).
End LineItem.

(** What [getTotals] returns. *)
Module Totals.
Record t : Type := mk {
  subtotal : number;
  discountAmount : number;
  discountedSubtotal : number;
  tax : number;
  total : number;
  itemCount : Z
}.
End Totals.

(** An entry of the [items] of [getCheckoutData]. *)
Module CheckoutItem.
Record t : Type := mk {
  id : string;
  name : option string;
  price : number;
  quantity : Z;
  discount : number
}.
End CheckoutItem.

(** What [getCheckoutData] returns. *)
Module CheckoutData.
Record t : Type := mk {
  items : list CheckoutItem.t;
  subtotal : number;
  discount : number;
  tax : number;
  total : number;
  itemCount : Z
}.
End CheckoutData.

(** A value that [loadFromStorage] can return, and so a value that
    [this.items] can hold: an array of line items, or an object with the
    properties [items] (absent, or an array or object again) and
    [discountRate]. *)
#[warnings="-register-all"]
Inductive value : Type :=
| ArrayOf (l : list LineItem.t)
| Envelope (items : option value) (discountRate : option number).

(** The string stored under the key of the cart. *)
Inductive entry : Type :=
| EmptyText                 (* the empty string *)
| Malformed                 (* a text that [JSON.parse] rejects *)
| JsonPrimitive             (* null, a number, a string or a boolean *)
| Json (v : value).         (* an array or an object *)

Inductive severity : Type := success | error | warning | info.

(** The texts handed to [showMessage]. *)
Inductive message : Type :=
| Invalid_product
| Added_to_cart (name : option string)
| Item_removed
| Cart_cleared
| Enter_a_discount_code
| Discount_code_applied (normalized : string)
| Invalid_discount_code.

(** The elements of the page the engine looks up by id. *)
Record Page : Type := mkPage {
  cart_items_list : bool;
  cart_summary_section : bool;
  cart_empty_message : bool;
  cart_summary_fields : bool;  (* cart-subtotal, -discount, -tax, -total *)
  cart_count : bool
}.

(** The fields of the instance that change. [taxRate], [STORAGE_KEY] and
    [API_BASE] are set once by the constructor. *)
Record Cart : Type := mkCart {
  items : value;
  discountRate : number
}.

Record World : Type := mkWorld {
  this : Cart;
  localStorage : option entry;   (* [None]: no entry under the key *)
  quota_exceeded : bool;         (* [setItem] throws *)
  page : Page;
  shown : list (message * severity)
}.

(** ** Computations *)

Inductive exn : Type := TypeError | QuotaExceededError.

Inductive completion (A : Type) : Type :=
| Normal (a : A)
| Throw (e : exn).
Arguments Normal {A} a.
Arguments Throw {A} e.

Definition M (A : Type) : Type := World -> completion A * World.

Definition ret {A} (a : A) : M A := fun w => (Normal a, w).

Definition bind {A B} (m : M A) (k : A -> M B) : M B :=
  fun w =>
    match m w with
    | (Normal a, w') => k a w'
    | (Throw e, w') => (Throw e, w')
    end.

Definition throw {A} (e : exn) : M A := fun w => (Throw e, w).

(** [try { m } catch (e) { }]. *)
Definition try_ (m : M unit) : M unit :=
  fun w =>
    match m w with
    | (Normal a, w') => (Normal a, w')
    | (Throw _, w') => (Normal tt, w')
    end.

Definition get : M World := fun w => (Normal w, w).

Declare Scope cart_scope.
Delimit Scope cart_scope with cart.
Notation "x <- m ;; k" := (bind m (fun x => k))
  (at level 61, m at next level, right associativity) : cart_scope.
Notation "m ;; k" := (bind m (fun _ => k))
  (at level 61, right associativity) : cart_scope.
Local Open Scope cart_scope.

Definition result {A} (m : M A) (w : World) : completion A := fst (m w).
Definition exec {A} (m : M A) (w : World) : World := snd (m w).

Definition set_this (c : Cart) : M unit :=
  fun w => (Normal tt,
            mkWorld c (localStorage w) (quota_exceeded w) (page w) (shown w)).

Definition set_items (v : value) : M unit :=
  w <- get ;; set_this (mkCart v (discountRate (this w))).

Definition set_discountRate (r : number) : M unit :=
  w <- get ;; set_this (mkCart (items (this w)) r).

(** The array [this.items], for a call of an array method on it: such a
    call throws a [TypeError] when [this.items] is not an array. *)
Definition this_items : M (list LineItem.t) :=
  w <- get ;;
  match items (this w) with
  | ArrayOf l => ret l
  | Envelope _ _ => throw TypeError
  end.

(** [localStorage.setItem(key, text)]. *)
Definition setItem (e : entry) : M unit :=
  fun w =>
    if quota_exceeded w then (Throw QuotaExceededError, w)
    else (Normal tt,
          mkWorld (this w) (Some e) (quota_exceeded w) (page w) (shown w)).

(** The first element that satisfies [p] is replaced by its image: the
    effect of assigning to a property of the object that [find] returned. *)
Fixpoint update_first (p : LineItem.t -> bool)
    (f : LineItem.t -> LineItem.t) (l : list LineItem.t) : list LineItem.t :=
  match l with
  | [] => []
  | x :: r => if p x then f x :: r else x :: update_first p f r
  end.

Definition taxRate : number := 0.1%float.
Definition STORAGE_KEY : string := "maricafe_cart".

(** ** The methods of the class *)

Module ShoppingCart.

(** [showMessage(message, type)]: whichever of [showMessageBox],
    [showToast] and the console is there receives the message. *)
Definition showMessage (m : message) (type : severity) : M unit :=
  fun w => (Normal tt,
            mkWorld (this w) (localStorage w) (quota_exceeded w) (page w)
                    (shown w ++ [(m, type)])).

(** [playAddSound()] catches whatever the synthesiser throws and touches
    nothing of the cart. *)
Definition playAddSound : M unit := ret tt.

Definition saveToStorage : M unit :=
  try_ (w <- get ;;
        let payload :=
          Envelope (Some (items (this w))) (Some (discountRate (this w))) in
        setItem (Json payload)).

Definition loadFromStorage : M value :=
  w <- get ;;
  match localStorage w with
  | None => ret (ArrayOf [])                  (* [!stored] *)
  | Some EmptyText => ret (ArrayOf [])        (* [!stored] *)
  | Some Malformed => ret (ArrayOf [])        (* [catch (e)] *)
  | Some JsonPrimitive => ret (ArrayOf [])
  | Some (Json (ArrayOf l)) => ret (ArrayOf l)
  | Some (Json (Envelope (Some its) r)) => ret (Envelope (Some its) r)
  | Some (Json (Envelope None _)) => ret (ArrayOf [])
  end.

Definition getItemCount : M Z :=
  l <- this_items ;;
  ret (fold_left (fun sum item => sum + LineItem.quantity item) l 0).

Definition getTotals : M Totals.t :=
  l <- this_items ;;
  w <- get ;;
  let '(subtotal, discountAmount) :=
    fold_left
      (fun '(subtotal, discountAmount) item =>
         let itemPrice := LineItem.price item in
         let itemDiscount := or_zero (LineItem.discount item) in
         let itemDiscountAmount :=
           (itemPrice * (itemDiscount / 100)
            * Number_of_Z (LineItem.quantity item))%float in
         ((subtotal + itemPrice * Number_of_Z (LineItem.quantity item))%float,
          (discountAmount + itemDiscountAmount)%float))
      l (0%float, 0%float) in
  let afterItemDiscount := (subtotal - discountAmount)%float in
  let globalDiscountAmount :=
    (afterItemDiscount * or_zero (discountRate (this w)))%float in
  let totalDiscount := (discountAmount + globalDiscountAmount)%float in
  let discountedSubtotal := (subtotal - totalDiscount)%float in
  let tax := (Math_max 0 discountedSubtotal * taxRate)%float in
  let total := (discountedSubtotal + tax)%float in
  ret (Totals.mk subtotal totalDiscount discountedSubtotal tax total
         (fold_left (fun sum item => sum + LineItem.quantity item) l 0)).

Definition updateCartBadge : M unit :=
  w <- get ;;
  if cart_count (page w) then
    _ <- getItemCount ;; ret tt
  else ret tt.

(** [render()], as far as the cart is concerned: what it writes goes to
    the page; what matters here is whether it returns. *)
Definition render : M unit :=
  w <- get ;;
  if negb (cart_items_list (page w) && cart_summary_section (page w)
           && cart_empty_message (page w))
  then ret tt
  else
    match items (this w) with
    | ArrayOf [] => ret tt                  (* [this.items.length === 0] *)
    | Envelope _ _ => throw TypeError       (* [this.items.map] *)
    | ArrayOf _ =>
        _ <- getTotals ;;
        if cart_summary_fields (page w) then ret tt
        else throw TypeError                (* [textContent] of [null] *)
    end.

(** The guard [!product || !product.id] of [addItem]: the product and
    its identifier when both are truthy. *)
Definition product_with_id (product : option Product.t)
    : option (Product.t * primitive) :=
  match product with
  | None => None
  | Some p =>
      match Product.id p with
      | None => None
      | Some pid => if truthy_id pid then Some (p, pid) else None
      end
  end.

Definition addItem (product : option Product.t) (quantity : Z) : M bool :=
  match product_with_id product with
  | None => showMessage Invalid_product error ;; ret false
  | Some (p, pid) =>
      let same item := strict_equal (LineItem.id item) pid in
      l <- this_items ;;
      (match find same l with
       | Some existingItem =>
           set_items
             (ArrayOf
                (update_first same
                   (fun item =>
                      LineItem.with_quantity
                        (LineItem.quantity item + quantity) item)
                   l))
       | None =>
           set_items
             (ArrayOf
                (l ++ [LineItem.mk (String_of pid) (Product.name p)
                         (Product.price p) quantity
                         (or_empty (Product.imageUrl p))
                         (or_empty (Product.category p))
                         (opt_or_zero (Product.discount p))]))
       end) ;;
      saveToStorage ;;
      updateCartBadge ;;
      playAddSound ;;
      showMessage (Added_to_cart (Product.name p)) success ;;
      ret true
  end.

Definition removeItem (productId : string) : M unit :=
  l <- this_items ;;
  set_items
    (ArrayOf
       (filter (fun item => negb (String.eqb (LineItem.id item) productId))
          l)) ;;
  saveToStorage ;;
  render ;;
  updateCartBadge ;;
  showMessage Item_removed info.

Definition updateQuantity (productId : string) (quantity : Z) : M unit :=
  let same item := String.eqb (LineItem.id item) productId in
  l <- this_items ;;
  match find same l with
  | Some item =>
      if quantity <=? 0 then removeItem productId
      else
        set_items
          (ArrayOf (update_first same (LineItem.with_quantity quantity) l)) ;;
        saveToStorage ;;
        render ;;
        updateCartBadge
  | None => ret tt
  end.

(** [clear()]; [confirmed] is the answer to the [confirm] prompt. *)
Definition clear (confirmed : bool) : M unit :=
  if confirmed then
    set_items (ArrayOf []) ;;
    saveToStorage ;;
    render ;;
    updateCartBadge ;;
    showMessage Cart_cleared info
  else ret tt.

Definition getCheckoutData : M CheckoutData.t :=
  totals <- getTotals ;;
  l <- this_items ;;
  ret (CheckoutData.mk
         (map (fun item =>
                 CheckoutItem.mk (LineItem.id item) (LineItem.name item)
                   (LineItem.price item) (LineItem.quantity item)
                   (or_zero (LineItem.discount item)))
              l)
         (Totals.subtotal totals)
         (Totals.discountAmount totals)
         (Totals.tax totals)
         (Totals.total totals)
         (Totals.itemCount totals)).

(** The table [codes] of [applyDiscountCode]. *)
Definition codes : list (string * number) :=
  [("SAVE10"%string, 0.10%float); ("SAVE15"%string, 0.15%float)].

(** [codes[normalized]]. The properties that the object inherits have a
    lower-case letter in their names, so no upper-cased key reaches them. *)
Fixpoint lookup (key : string) (table : list (string * number))
    : option number :=
  match table with
  | [] => None
  | (k, v) :: rest => if String.eqb k key then Some v else lookup key rest
  end.

(** The argument of [applyDiscountCode]: a string, or a value of another
    type. *)
Inductive code_argument : Type :=
| CodeString (s : string)
| NotAString.

(** [applyDiscountCode(code)]; the result [None] is [undefined]. *)
Definition applyDiscountCode (code : code_argument) : M (option bool) :=
  match code with
  | NotAString => showMessage Enter_a_discount_code warning ;; ret None
  | CodeString EmptyString =>
      showMessage Enter_a_discount_code warning ;; ret None
  | CodeString s =>
      let normalized := toUpperCase (trim s) in
      match lookup normalized codes with
      | Some rate =>
          if truthy rate then
            set_discountRate rate ;;
            saveToStorage ;;
            render ;;
            showMessage (Discount_code_applied normalized) success ;;
            ret (Some true)
          else
            showMessage Invalid_discount_code error ;; ret (Some false)
      | None =>
          showMessage Invalid_discount_code error ;; ret (Some false)
      end
  end.

(** The handler that [init()] registers for the [storage] event;
    [key] is [e.key], which is [null] when the whole storage is cleared. *)
Definition on_storage (key : option string) : M unit :=
  match key with
  | Some k =>
      if String.eqb k STORAGE_KEY then
        stored <- loadFromStorage ;;
        set_items stored ;;
        render ;;
        updateCartBadge
      else ret tt
  | None => ret tt
  end.

(** [init()] registers the handlers of the [storage] event and of the two
    buttons; it changes nothing of the cart. *)
Definition init : M unit := ret tt.

(** [new ShoppingCart()]: the instance replaces [this]. *)
Definition constructor : M unit :=
  set_this (mkCart (ArrayOf []) 0%float) ;;
  init ;;
  stored <- loadFromStorage ;;
  match stored with
  | ArrayOf _ => set_items stored
  | Envelope (Some its) r =>
      set_items its ;;
      set_discountRate (opt_or_zero r)
  | Envelope None _ => ret tt
  end.

End ShoppingCart.

(** The public operations that change the cart. *)
Inductive operation : Type :=
| AddItem (product : option Product.t) (quantity : Z)
| RemoveItem (productId : string)
| UpdateQuantity (productId : string) (quantity : Z)
| Clear (confirmed : bool)
| ApplyDiscountCode (code : ShoppingCart.code_argument).

Definition run (op : operation) : M unit :=
  match op with
  | AddItem product quantity => ShoppingCart.addItem product quantity ;; ret tt
  | RemoveItem productId => ShoppingCart.removeItem productId
  | UpdateQuantity productId quantity =>
      ShoppingCart.updateQuantity productId quantity
  | Clear confirmed => ShoppingCart.clear confirmed
  | ApplyDiscountCode code => ShoppingCart.applyDiscountCode code ;; ret tt
  end.

(** ** The totals algorithm as the specification words it

    Section 4.1, steps 1 to 8: two sums over the line items, accumulated
    from zero in the order of the list, then the global discount on what
    the per-item discounts leave, the tax on the non-negative part and the
    total. *)

Definition sum_numbers (xs : list number) : number :=
  fold_left PrimFloat.add xs 0%float.

Definition sum_quantities (l : list LineItem.t) : Z :=
  fold_left Z.add (map LineItem.quantity l) 0.

Definition totals_of (l : list LineItem.t) (globalDiscountRate : number)
    : Totals.t :=
  let subtotal :=
    sum_numbers (map (fun item =>
                (LineItem.price item
                 * Number_of_Z (LineItem.quantity item))%float) l) in
  let perItemDiscountTotal :=
    sum_numbers (map (fun item =>
                (LineItem.price item * (LineItem.discount item / 100)
                 * Number_of_Z (LineItem.quantity item))%float) l) in
  let afterItemDiscount := (subtotal - perItemDiscountTotal)%float in
  let globalDiscountAmount := (afterItemDiscount * globalDiscountRate)%float in
  let totalDiscount := (perItemDiscountTotal + globalDiscountAmount)%float in
  let discountedSubtotal := (subtotal - totalDiscount)%float in
  let tax := (Math_max 0 discountedSubtotal * 0.10)%float in
  let total := (discountedSubtotal + tax)%float in
  Totals.mk subtotal totalDiscount discountedSubtotal tax total
    (sum_quantities l).

(** ** Sequences of calls *)

(** [addItem(product, q)] for each [q] of a list, in order. *)
Fixpoint addItems (product : option Product.t) (quantities : list Z)
    : M unit :=
  match quantities with
  | [] => ret tt
  | q :: rest => ShoppingCart.addItem product q ;; addItems product rest
  end.

(** ** Predicates on the state *)

(** Every line item has a quantity of at least one. *)
Definition quantities_positive (w : World) : Prop :=
  forall l, items (this w) = ArrayOf l ->
            Forall (fun item => 1 <= LineItem.quantity item) l.

(** The page has the elements of the cart complete, or not at all: then
    [render] returns. *)
Definition page_complete (p : Page) : Prop :=
  cart_items_list p && cart_summary_section p && cart_empty_message p = true ->
  cart_summary_fields p = true.

(** The product or its identifier is missing: [!product || !product.id]. *)
Definition id_missing (product : option Product.t) : Prop :=
  match product with
  | None => True
  | Some p =>
      match Product.id p with
      | None => True
      | Some v => truthy_id v = false
      end
  end.

(** The discounts and the rate of the cart are numbers that [|| 0] leaves
    alone. *)
Definition plain_cart (w : World) : Prop :=
  plain (discountRate (this w))
  /\ forall l, items (this w) = ArrayOf l ->
               Forall (fun item => plain (LineItem.discount item)) l.

(** A number that JSON carries unchanged: finite, and not the negative
    zero (which is printed as [0]); [JSON.stringify] prints the others as
    [null]. *)
Definition json_number (x : number) : Prop :=
  PrimFloat.is_finite x = true /\ plain x.

Definition json_item (item : LineItem.t) : Prop :=
  json_number (LineItem.price item) /\ json_number (LineItem.discount item).

(** A value all of whose numbers JSON carries unchanged. *)
Fixpoint json_value (v : value) : Prop :=
  match v with
  | ArrayOf l => Forall json_item l
  | Envelope its r =>
      match its with
      | Some v' => json_value v'
      | None => True
      end
      /\ match r with
         | Some x => json_number x
         | None => True
         end
  end.

Definition json_cart (c : Cart) : Prop :=
  json_value (items c) /\ json_number (discountRate c).

(** Two worlds with the same cart and the same stored entry. *)
Definition agree (w1 w2 : World) : Prop :=
  this w1 = this w2 /\ localStorage w1 = localStorage w2.

(** ** The effect of the operations, as functions *)

(** The world after a successful [saveToStorage]. *)
Definition saved (w : World) : World :=
  mkWorld (this w)
    (Some (Json (Envelope (Some (items (this w)))
                   (Some (discountRate (this w))))))
    (quota_exceeded w) (page w) (shown w).

(** The world after [saveToStorage]: the write is lost when the quota is
    exceeded. *)
Definition persisted (w : World) : World :=
  if quota_exceeded w then w else saved w.

Definition with_items (v : value) (w : World) : World :=
  mkWorld (mkCart v (discountRate (this w)))
    (localStorage w) (quota_exceeded w) (page w) (shown w).

Definition with_discountRate (r : number) (w : World) : World :=
  mkWorld (mkCart (items (this w)) r)
    (localStorage w) (quota_exceeded w) (page w) (shown w).

Definition with_shown (m : message) (s : severity) (w : World) : World :=
  mkWorld (this w) (localStorage w) (quota_exceeded w) (page w)
    (shown w ++ [(m, s)]).

(** The list that [addItem] leaves. *)
Definition added (pid : primitive) (p : Product.t) (quantity : Z)
    (l : list LineItem.t) : list LineItem.t :=
  let same item := strict_equal (LineItem.id item) pid in
  match find same l with
  | Some _ =>
      update_first same
        (fun item =>
           LineItem.with_quantity (LineItem.quantity item + quantity) item) l
  | None =>
      l ++ [LineItem.mk (String_of pid) (Product.name p) (Product.price p)
              quantity (or_empty (Product.imageUrl p))
              (or_empty (Product.category p))
              (opt_or_zero (Product.discount p))]
  end.

(** The list that [removeItem] leaves. *)
Definition removed (productId : string) (l : list LineItem.t)
    : list LineItem.t :=
  filter (fun item => negb (String.eqb (LineItem.id item) productId)) l.

(** What [loadFromStorage] hands over. *)
Definition loaded (e : option entry) : value :=
  match e with
  | Some (Json (ArrayOf l)) => ArrayOf l
  | Some (Json (Envelope (Some its) r)) => Envelope (Some its) r
  | _ => ArrayOf []
  end.

(** The effect of an operation on the cart and on the stored entry; the
    notifications are left out. [run_agree] below shows that this is what
    the methods do. *)
Definition after (op : operation) (w : World) : World :=
  match op with
  | AddItem product quantity =>
      match ShoppingCart.product_with_id product, items (this w) with
      | Some (p, pid), ArrayOf l =>
          persisted (with_items (ArrayOf (added pid p quantity l)) w)
      | _, _ => w
      end
  | RemoveItem productId =>
      match items (this w) with
      | ArrayOf l => persisted (with_items (ArrayOf (removed productId l)) w)
      | Envelope _ _ => w
      end
  | UpdateQuantity productId quantity =>
      let same item := String.eqb (LineItem.id item) productId in
      match items (this w) with
      | ArrayOf l =>
          match find same l with
          | Some _ =>
              if quantity <=? 0
              then persisted (with_items (ArrayOf (removed productId l)) w)
              else
                persisted
                  (with_items
                     (ArrayOf
                        (update_first same
                           (LineItem.with_quantity quantity) l)) w)
          | None => w
          end
      | Envelope _ _ => w
      end
  | Clear confirmed =>
      if confirmed then persisted (with_items (ArrayOf []) w) else w
  | ApplyDiscountCode code =>
      match code with
      | ShoppingCart.CodeString (String c s) =>
          match
            ShoppingCart.lookup (toUpperCase (trim (String c s)))
              ShoppingCart.codes
          with
          | Some rate => persisted (with_discountRate rate w)
          | None => w
          end
      | _ => w
      end
  end.

(** ** Example values *)

(** A page with every element of the cart. *)
Definition whole_page : Page := mkPage true true true true true.

(** A fresh engine on an empty storage. *)
Definition empty_world : World :=
  mkWorld (mkCart (ArrayOf []) 0%float) None false whole_page [].

(** One item priced 10.00, quantity 2, 10 percent off. *)
Definition ten_twice : LineItem.t :=
  LineItem.mk "a" (Some "Chips"%string) 10%float 2 "" "" 10%float.

(** A cart of that item under the rate 0.10. *)
Definition discounted_world : World :=
  mkWorld (mkCart (ArrayOf [ten_twice]) 0.10%float) None false whole_page [].

Definition chips : Product.t :=
  Product.mk (Some (IdString "a")) (Some "Chips"%string) 10%float
    None None (Some 10%float).

(** The same product under a numeric identifier. *)
Definition numbered : Product.t :=
  Product.mk (Some (IdNumber 7)) (Some "Chips"%string) 10%float
    None None (Some 10%float).

(** The line that [addItem] makes of these products. *)
Definition line (id : string) (quantity : Z) : LineItem.t :=
  LineItem.mk id (Some "Chips"%string) 10%float quantity "" "" 10%float.

(** A tab with an empty cart, after another tab stored a cart of one line
    under the rate 0.15. *)
Definition other_tab_wrote : World :=
  mkWorld (mkCart (ArrayOf []) 0%float)
    (Some (Json (Envelope (Some (ArrayOf [ten_twice])) (Some 0.15%float))))
    false whole_page [].

(** ** The controls of the page, the checkout guard and the badge

    The handlers that [render()] and [init()] attach, [proceedToCheckout],
    what [updateCartBadge] writes, and the buy-now handler of
    [initActionButtons]. A handler runs in a task of its own: what it throws
    ends that task and nothing else. *)

(** The value of a digit in a radix: [0-9], then [a-z] or [A-Z] from ten. *)
Definition digit_value (radix : Z) (c : ascii) : option Z :=
  let n := Z.of_N (N_of_ascii c) in
  let v :=
    if (48 <=? n) && (n <=? 57) then Some (n - 48)
    else if (97 <=? n) && (n <=? 122) then Some (n - 87)
    else if (65 <=? n) && (n <=? 90) then Some (n - 55)
    else None in
  match v with
  | Some d => if d <? radix then Some d else None
  | None => None
  end.

(** The integer of the longest prefix of digits; [acc] is the integer of
    the digits read so far, [None] when none was read. *)
Fixpoint leading_digits (radix : Z) (s : list ascii) (acc : option Z)
    : option Z :=
  match s with
  | [] => acc
  | c :: r =>
      match digit_value radix c with
      | Some d =>
          leading_digits radix r
            (Some (match acc with
                   | Some a => a * radix + d
                   | None => d
                   end))
      | None => acc
      end
  end.

(** [parseInt(s)] without a radix: leading white space is skipped, a sign
    is read, a prefix [0x] or [0X] selects the radix 16, and the longest
    prefix of digits is the value; [None] is [NaN]. The value is exact (the
    double of [parseInt] rounds above 2^53). *)
Definition parseInt (s : string) : option Z :=
  let s0 := trimStart (list_ascii_of_string s) in
  let '(negative, s1) :=
    match s0 with
    | c :: r =>
        if Ascii.eqb c "-" then (true, r)
        else if Ascii.eqb c "+" then (false, r)
        else (false, s0)
    | [] => (false, s0)
    end in
  let '(radix, s2) :=
    match s1 with
    | c :: d :: r =>
        if Ascii.eqb c "0" && (Ascii.eqb d "x" || Ascii.eqb d "X")
        then (16, r) else (10, s1)
    | _ => (10, s1)
    end in
  match leading_digits radix s2 None with
  | Some n => Some (if negative then - n else n)
  | None => None
  end.

(** The quantity that the handler of a quantity input passes on:
    [let v = parseInt(value); if (isNaN(v) || v < 1) v = 1]. *)
Definition quantity_of_input (value : string) : Z :=
  match parseInt value with
  | Some v => if v <? 1 then 1 else v
  | None => 1
  end.

Module Controls.

(** The handler of a [.qty-decrease] button; [id] is the [data-id] of its
    control. *)
Definition qty_decrease_click (id : string) : M unit :=
  l <- this_items ;;
  let item := find (fun it => String.eqb (LineItem.id it) id) l in
  let newQty :=
    match item with
    | Some it => LineItem.quantity it
    | None => 1
    end - 1 in
  ShoppingCart.updateQuantity id newQty.

(** The handler of a [.qty-increase] button. *)
Definition qty_increase_click (id : string) : M unit :=
  l <- this_items ;;
  let item := find (fun it => String.eqb (LineItem.id it) id) l in
  let newQty :=
    match item with
    | Some it => LineItem.quantity it
    | None => 0
    end + 1 in
  ShoppingCart.updateQuantity id newQty.

(** What the debounced handler of a [.qty-input] does when its timer
    elapses; [value] is [ev.target.value]. *)
Definition qty_input (id : string) (value : string) : M unit :=
  ShoppingCart.updateQuantity id (quantity_of_input value).

(** The handler of a [.remove-btn] button. *)
Definition remove_btn_click (id : string) : M unit :=
  ShoppingCart.removeItem id.

(** [_applyDiscountHandler]; [codeEl] is the value of the element
    [cart-discount-code], [None] without the element. *)
Definition _applyDiscountHandler (codeEl : option string) : M unit :=
  let code :=
    match codeEl with
    | Some value => value
    | None => EmptyString
    end in
  ShoppingCart.applyDiscountCode (ShoppingCart.CodeString code) ;; ret tt.

(** [_clearCartHandler]. *)
Definition _clearCartHandler (confirmed : bool) : M unit :=
  ShoppingCart.clear confirmed.

End Controls.

(** [debounce(fn, wait)]. The closure keeps the timer [t]: a pending timer
    holds the arguments of the call that set it. A call clears the timer and
    sets a new one; when the timer elapses, [fn] runs on those arguments. *)
Module Debounce.

Inductive event (A : Type) : Type :=
| Call (args : A)
| Elapse.
Arguments Call {A} args.
Arguments Elapse {A}.

Definition step {A : Type} (fn : A -> M unit) (t : option A) (e : event A)
    : M (option A) :=
  match e with
  | Call args => ret (Some args)
  | Elapse =>
      match t with
      | Some args => try_ (fn args) ;; ret None
      | None => ret None
      end
  end.

Fixpoint run {A : Type} (fn : A -> M unit) (t : option A)
    (es : list (event A)) : M (option A) :=
  match es with
  | [] => ret t
  | e :: rest => t' <- step fn t e ;; run fn t' rest
  end.

End Debounce.

(** What the page offers to [proceedToCheckout]. *)
Record Window : Type := mkWindow {
  currentUser : option (option primitive);  (* the user and its [id] *)
  openModal : bool;
  closeModal : bool;
  openPaymentModal : bool
}.

(** The calls that a handler makes on the page. *)
Inductive call : Type :=
| show_cart_is_empty              (* a warning *)
| show_please_log_in              (* an information *)
| open_modal (name : string)
| close_modal (name : string)
| open_payment_modal.

(** [!window.currentUser || !window.currentUser.id]. *)
Definition authenticated (win : Window) : bool :=
  match currentUser win with
  | Some (Some id) => truthy_id id
  | _ => false
  end.

(** [proceedToCheckout()]: the calls it makes, in order. *)
Definition proceedToCheckout (win : Window) : M (list call) :=
  w <- get ;;
  match items (this w) with
  | ArrayOf [] => ret [show_cart_is_empty]     (* [this.items.length === 0] *)
  | _ =>
      if negb (authenticated win) then
        ret (show_please_log_in
               :: (if openModal win then [open_modal "login-modal"] else []))
      else
        ret ((if closeModal win then [close_modal "cart-modal"] else [])
               ++ (if openPaymentModal win then [open_payment_modal] else []))
  end.

(** What [updateCartBadge()] writes to the badge: its text and whether it
    is displayed; [None] without a badge. *)
Definition badge : M (option (Z * bool)) :=
  w <- get ;;
  if cart_count (page w) then
    count <- ShoppingCart.getItemCount ;;
    ret (Some (count, 0 <? count))
  else ret None.

(** The events of the page that reach the engine. *)
Inductive page_event : Type :=
| Decrease (id : string)
| Increase (id : string)
| Input (id : string) (value : string)
| Remove (id : string)
| Apply (codeEl : option string)
| ClearCart (confirmed : bool)
| BuyNow (products : option (list Product.t)) (cart modal : bool)
    (productId : option string)
| Storage (key : option string)
| Reload.                            (* the page is loaded anew *)

(** The handler of a [.buy-now] button of [initActionButtons], and the
    tasks of the events. *)
Section BuyNow.

(** [n == s] for a number and a string: the string is converted to a
    number first. *)
Variable number_equals_string : Z -> string -> bool.

(** [p.id == productId]; [None] is [undefined]. *)
Definition loose_equal (id : option primitive) (productId : option string)
    : bool :=
  match id, productId with
  | None, None => true
  | Some (IdString a), Some s => String.eqb a s
  | Some (IdNumber n), Some s => number_equals_string n s
  | _, _ => false
  end.

(** [products] is [window.products]; [cart] tells whether [window.Cart] is
    there, [modal] whether [window.openModal] is; [productId] is the
    [data-id] of the button. The result is the calls made on the page. *)
Definition buy_now_click (products : option (list Product.t))
    (cart modal : bool) (productId : option string) : M (list call) :=
  let product :=
    match products with
    | Some ps => find (fun p => loose_equal (Product.id p) productId) ps
    | None => None
    end in
  match product with
  | Some p =>
      if cart then
        ShoppingCart.addItem (Some p) 1 ;;
        ret (if modal then [open_modal "cart-modal"] else [])
      else ret []
  | None => ret []
  end.

(** The task of an event: its handler, and the end of what it throws. *)
Definition dispatch (e : page_event) : M unit :=
  try_
    match e with
    | Decrease id => Controls.qty_decrease_click id
    | Increase id => Controls.qty_increase_click id
    | Input id value => Controls.qty_input id value
    | Remove id => Controls.remove_btn_click id
    | Apply codeEl => Controls._applyDiscountHandler codeEl
    | ClearCart confirmed => Controls._clearCartHandler confirmed
    | BuyNow products cart modal productId =>
        buy_now_click products cart modal productId ;; ret tt
    | Storage key => ShoppingCart.on_storage key
    | Reload => ShoppingCart.constructor
    end.

End BuyNow.

(** Every quantity in a value is at least one. *)
Fixpoint value_positive (v : value) : Prop :=
  match v with
  | ArrayOf l => Forall (fun item => 1 <= LineItem.quantity item) l
  | Envelope its _ =>
      match its with
      | Some v' => value_positive v'
      | None => True
      end
  end.

(** Every quantity in the cart and in the stored entry is at least one. *)
Definition all_positive (w : World) : Prop :=
  value_positive (items (this w))
  /\ match localStorage w with
     | Some (Json v) => value_positive v
     | _ => True
     end.

(** The stored entry is the envelope of the cart. *)
Definition in_sync (w : World) : Prop :=
  localStorage w
  = Some (Json (Envelope (Some (items (this w)))
                  (Some (discountRate (this w))))).

(** The ids of the lines of the cart, in order. *)
Definition ids (w : World) : list string :=
  match items (this w) with
  | ArrayOf l => map LineItem.id l
  | Envelope _ _ => []
  end.

(** The product of an [addItem] has a string for its id, if it has one. *)
Definition string_id (op : operation) : Prop :=
  match op with
  | AddItem (Some p) _ =>
      match Product.id p with
      | Some (IdNumber _) => False
      | _ => True
      end
  | _ => True
  end.

(** [m], [n] times over. *)
Fixpoint times (n : nat) (m : M unit) : M unit :=
  match n with
  | O => ret tt
  | S k => m ;; times k m
  end.

(** A computation that never touches the quota or the page. *)
Definition frame {A : Type} (m : M A) : Prop :=
  forall w, quota_exceeded (exec m w) = quota_exceeded w
            /\ page (exec m w) = page w.

(** A computation that never writes to the storage. *)
Definition keeps_storage {A : Type} (m : M A) : Prop :=
  forall w, localStorage (exec m w) = localStorage w.

(** [writes op w c]: the operation [op], run on [w], assigns the cart [c]
    and saves it. *)
Inductive writes : operation -> World -> Cart -> Prop :=
| writes_add product p pid quantity w l :
    ShoppingCart.product_with_id product = Some (p, pid) ->
    items (this w) = ArrayOf l ->
    writes (AddItem product quantity) w
      (mkCart (ArrayOf (added pid p quantity l)) (discountRate (this w)))
| writes_remove productId w l :
    items (this w) = ArrayOf l ->
    writes (RemoveItem productId) w
      (mkCart (ArrayOf (removed productId l)) (discountRate (this w)))
| writes_update_remove productId quantity w l item :
    items (this w) = ArrayOf l ->
    find (fun item => String.eqb (LineItem.id item) productId) l = Some item ->
    quantity <= 0 ->
    writes (UpdateQuantity productId quantity) w
      (mkCart (ArrayOf (removed productId l)) (discountRate (this w)))
| writes_update productId quantity w l item :
    items (this w) = ArrayOf l ->
    find (fun item => String.eqb (LineItem.id item) productId) l = Some item ->
    1 <= quantity ->
    writes (UpdateQuantity productId quantity) w
      (mkCart
         (ArrayOf
            (update_first (fun item => String.eqb (LineItem.id item) productId)
               (LineItem.with_quantity quantity) l))
         (discountRate (this w)))
| writes_clear w :
    writes (Clear true) w (mkCart (ArrayOf []) (discountRate (this w)))
| writes_code s rate w :
    s <> EmptyString ->
    ShoppingCart.lookup (toUpperCase (trim s)) ShoppingCart.codes = Some rate ->
    writes (ApplyDiscountCode (ShoppingCart.CodeString s)) w
      (mkCart (items (this w)) rate).

(** The discount rate is one that the engine sets itself. *)
Definition known_rate (r : number) : Prop :=
  r = 0%float \/ r = 0.10%float \/ r = 0.15%float.

(** ** Basic facts *)

Lemma or_zero_plain (x : number) : plain x -> or_zero x = x.
Proof.
  intros [H | H]; unfold or_zero.
  - now rewrite H.
  - subst x. reflexivity.
Qed.

Lemma plain_or_zero (x : number) : plain (or_zero x).
Proof.
  unfold or_zero. destruct (truthy x) eqn:E.
  - now left.
  - now right.
Qed.

Lemma fold_left_two_sums (A : Type) (f g : A -> number) (l : list A) :
  forall a b : number,
    fold_left (fun '(s, d) x => ((s + f x)%float, (d + g x)%float)) l (a, b)
    = (fold_left PrimFloat.add (map f l) a,
       fold_left PrimFloat.add (map g l) b).
Proof.
  induction l as [| x l IH]; intros a b; simpl.
  - reflexivity.
  - apply IH.
Qed.

Lemma fold_left_quantities (l : list LineItem.t) :
  forall z : Z,
    fold_left (fun sum item => sum + LineItem.quantity item) l z
    = fold_left Z.add (map LineItem.quantity l) z.
Proof.
  induction l as [| x l IH]; intros z; simpl; [reflexivity | apply IH].
Qed.

(** What [getTotals] computes, whatever the numbers are: a falsy
    [discount] or [discountRate] counts as zero. *)
Lemma getTotals_run (w : World) (l : list LineItem.t) :
  items (this w) = ArrayOf l ->
  ShoppingCart.getTotals w
  = (Normal
       (totals_of
          (map (fun item =>
                  LineItem.mk (LineItem.id item) (LineItem.name item)
                    (LineItem.price item) (LineItem.quantity item)
                    (LineItem.imageUrl item) (LineItem.category item)
                    (or_zero (LineItem.discount item))) l)
          (or_zero (discountRate (this w)))),
     w).
Proof.
  intros H.
  unfold ShoppingCart.getTotals, this_items, bind, get, ret. rewrite H.
  rewrite (fold_left_two_sums _
             (fun item =>
                (LineItem.price item
                 * Number_of_Z (LineItem.quantity item))%float)
             (fun item =>
                (LineItem.price item * (or_zero (LineItem.discount item) / 100)
                 * Number_of_Z (LineItem.quantity item))%float)).
  rewrite fold_left_quantities.
  unfold totals_of, sum_numbers, sum_quantities, taxRate.
  rewrite !map_map. simpl. reflexivity.
Qed.

Lemma getTotals_throws (w : World) its r :
  items (this w) = Envelope its r ->
  ShoppingCart.getTotals w = (Throw TypeError, w).
Proof.
  intros H. unfold ShoppingCart.getTotals, this_items, bind, get, throw.
  now rewrite H.
Qed.

Lemma getItemCount_run (w : World) (l : list LineItem.t) :
  items (this w) = ArrayOf l ->
  ShoppingCart.getItemCount w = (Normal (sum_quantities l), w).
Proof.
  intros H. unfold ShoppingCart.getItemCount, this_items, bind, get, ret.
  rewrite H. now rewrite fold_left_quantities.
Qed.

Lemma getItemCount_throws (w : World) its r :
  items (this w) = Envelope its r ->
  ShoppingCart.getItemCount w = (Throw TypeError, w).
Proof.
  intros H. unfold ShoppingCart.getItemCount, this_items, bind, get, throw.
  now rewrite H.
Qed.

Lemma saveToStorage_run (w : World) :
  ShoppingCart.saveToStorage w = (Normal tt, persisted w).
Proof.
  unfold ShoppingCart.saveToStorage, try_, bind, get, setItem, persisted, saved.
  destruct (quota_exceeded w); reflexivity.
Qed.

Lemma updateCartBadge_run (w : World) (l : list LineItem.t) :
  items (this w) = ArrayOf l ->
  ShoppingCart.updateCartBadge w = (Normal tt, w).
Proof.
  intros H. unfold ShoppingCart.updateCartBadge, bind, get, ret.
  destruct (cart_count (page w)); [| reflexivity].
  now rewrite (getItemCount_run w l H).
Qed.

Lemma render_run (w : World) (l : list LineItem.t) :
  items (this w) = ArrayOf l ->
  page_complete (page w) ->
  ShoppingCart.render w = (Normal tt, w).
Proof.
  intros H Hp. unfold ShoppingCart.render, bind, get, ret, throw.
  destruct (cart_items_list (page w) && cart_summary_section (page w)
            && cart_empty_message (page w)) eqn:E; simpl; [| reflexivity].
  rewrite H. destruct l as [| x l']; [reflexivity |].
  rewrite (getTotals_run w (x :: l') H).
  now rewrite (Hp E).
Qed.

(** [render] never writes to the world, whether it returns or throws. *)
Lemma render_exec (w : World) : exec ShoppingCart.render w = w.
Proof.
  unfold exec, ShoppingCart.render, bind, get, ret, throw.
  destruct (negb _); [reflexivity |].
  destruct (items (this w)) as [l | its r] eqn:H; [| reflexivity].
  destruct l as [| x l']; [reflexivity |].
  rewrite (getTotals_run w (x :: l') H).
  destruct (cart_summary_fields (page w)); reflexivity.
Qed.

Lemma updateCartBadge_exec (w : World) :
  exec ShoppingCart.updateCartBadge w = w.
Proof.
  unfold exec, ShoppingCart.updateCartBadge, bind, get, ret.
  destruct (cart_count (page w)); [| reflexivity].
  destruct (items (this w)) as [l | its r] eqn:H.
  - now rewrite (getItemCount_run w l H).
  - now rewrite (getItemCount_throws w its r H).
Qed.

(** ** Lists of line items *)

Lemma update_first_split (p : LineItem.t -> bool)
    (f : LineItem.t -> LineItem.t) (l : list LineItem.t) (x : LineItem.t) :
  find p l = Some x ->
  exists l1 l2,
    l = l1 ++ x :: l2
    /\ Forall (fun y => p y = false) l1
    /\ update_first p f l = l1 ++ f x :: l2.
Proof.
  induction l as [| y l IH]; simpl; [discriminate |].
  destruct (p y) eqn:E; intros H.
  - injection H as ->. exists [], l. repeat split. constructor.
  - destruct (IH H) as (l1 & l2 & -> & Hl1 & Hu).
    exists (y :: l1), l2. repeat split.
    + now constructor.
    + simpl. now rewrite Hu.
Qed.

Lemma update_first_ids (p : LineItem.t -> bool) (q : LineItem.t -> Z)
    (l : list LineItem.t) :
  map LineItem.id
    (update_first p (fun item => LineItem.with_quantity (q item) item) l)
  = map LineItem.id l.
Proof.
  induction l as [| y l IH]; simpl; [reflexivity |].
  destruct (p y); simpl; [reflexivity | now rewrite IH].
Qed.

Lemma find_after_absent (p : LineItem.t -> bool) (l : list LineItem.t)
    (x : LineItem.t) :
  Forall (fun y => p y = false) l -> p x = true ->
  find p (l ++ [x]) = Some x.
Proof.
  induction 1 as [| y l Hy _ IH]; intros Hx; simpl.
  - now rewrite Hx.
  - rewrite Hy. now apply IH.
Qed.

Lemma update_first_after_absent (p : LineItem.t -> bool)
    (f : LineItem.t -> LineItem.t) (l : list LineItem.t) (x : LineItem.t) :
  Forall (fun y => p y = false) l -> p x = true ->
  update_first p f (l ++ [x]) = l ++ [f x].
Proof.
  induction 1 as [| y l Hy _ IH]; intros Hx; simpl.
  - now rewrite Hx.
  - rewrite Hy. now rewrite IH.
Qed.

Lemma find_none_absent (p : LineItem.t -> bool) (l : list LineItem.t) :
  find p l = None <-> Forall (fun y => p y = false) l.
Proof.
  split.
  - intros H. apply Forall_forall. intros y Hy.
    exact (find_none p l H y Hy).
  - induction 1 as [| y l Hy _ IH]; simpl; [reflexivity |].
    now rewrite Hy.
Qed.

Lemma filter_absent (p : LineItem.t -> bool) (l : list LineItem.t) :
  Forall (fun y => p y = false) l ->
  filter (fun y => negb (p y)) l = l.
Proof.
  induction 1 as [| y l Hy _ IH]; simpl; [reflexivity |].
  rewrite Hy. simpl. now rewrite IH.
Qed.

Lemma filter_removes (p : LineItem.t -> bool) (l : list LineItem.t) :
  Forall (fun y => p y = false) (filter (fun y => negb (p y)) l).
Proof.
  apply Forall_forall. intros y Hy. apply filter_In in Hy.
  destruct Hy as [_ Hy]. now apply negb_true_iff in Hy.
Qed.

(** ** The operations, run on a cart whose [items] is an array *)

Lemma render_split (w : World) :
  ShoppingCart.render w = (result ShoppingCart.render w, w).
Proof.
  unfold result. rewrite <- (render_exec w) at 3. unfold exec.
  now destruct (ShoppingCart.render w).
Qed.

Lemma updateCartBadge_split (w : World) :
  ShoppingCart.updateCartBadge w
  = (result ShoppingCart.updateCartBadge w, w).
Proof.
  unfold result. rewrite <- (updateCartBadge_exec w) at 3. unfold exec.
  now destruct (ShoppingCart.updateCartBadge w).
Qed.

Lemma addItem_invalid (product : option Product.t) (quantity : Z)
    (w : World) :
  ShoppingCart.product_with_id product = None ->
  ShoppingCart.addItem product quantity w
  = (Normal false, with_shown Invalid_product error w).
Proof.
  intros H. unfold ShoppingCart.addItem. now rewrite H.
Qed.

Lemma addItem_run (product : option Product.t) (p : Product.t)
    (pid : primitive) (quantity : Z) (w : World) (l : list LineItem.t) :
  ShoppingCart.product_with_id product = Some (p, pid) ->
  items (this w) = ArrayOf l ->
  ShoppingCart.addItem product quantity w
  = (Normal true,
     with_shown (Added_to_cart (Product.name p)) success
       (persisted (with_items (ArrayOf (added pid p quantity l)) w))).
Proof.
  intros Hp H. unfold ShoppingCart.addItem. rewrite Hp.
  unfold bind at 1. unfold this_items, bind at 1, get. rewrite H.
  unfold ret at 1.
  set (l' := added pid p quantity l).
  assert (E : forall k : unit -> M bool,
             bind
               (match
                  find (fun item => strict_equal (LineItem.id item) pid) l
                with
                | Some _ =>
                    set_items
                      (ArrayOf
                         (update_first
                            (fun item => strict_equal (LineItem.id item) pid)
                            (fun item =>
                               LineItem.with_quantity
                                 (LineItem.quantity item + quantity) item) l))
                | None =>
                    set_items
                      (ArrayOf
                         (l ++ [LineItem.mk (String_of pid) (Product.name p)
                                  (Product.price p) quantity
                                  (or_empty (Product.imageUrl p))
                                  (or_empty (Product.category p))
                                  (opt_or_zero (Product.discount p))]))
                end) k w
             = k tt (with_items (ArrayOf l') w)).
  { intros k. subst l'. unfold added, bind.
    destruct (find _ l); reflexivity. }
  rewrite E. unfold bind. rewrite saveToStorage_run.
  rewrite (updateCartBadge_run _ l').
  - reflexivity.
  - unfold persisted, saved, with_items.
    destruct (quota_exceeded _); reflexivity.
Qed.

Lemma removeItem_run (productId : string) (w : World)
    (l : list LineItem.t) :
  items (this w) = ArrayOf l ->
  page_complete (page w) ->
  ShoppingCart.removeItem productId w
  = (Normal tt,
     with_shown Item_removed info
       (persisted (with_items (ArrayOf (removed productId l)) w))).
Proof.
  intros H Hp. unfold ShoppingCart.removeItem.
  unfold bind at 1. unfold this_items, bind at 1, get. rewrite H.
  unfold ret at 1. unfold bind. fold (removed productId l).
  change (set_items (ArrayOf (removed productId l)) w)
    with (Normal tt, with_items (ArrayOf (removed productId l)) w).
  cbv beta iota. rewrite saveToStorage_run.
  assert (Hi : items (this (persisted
                 (with_items (ArrayOf (removed productId l)) w)))
               = ArrayOf (removed productId l)).
  { unfold persisted, saved, with_items.
    destruct (quota_exceeded _); reflexivity. }
  assert (Hq : page (persisted
                 (with_items (ArrayOf (removed productId l)) w)) = page w).
  { unfold persisted, saved, with_items.
    destruct (quota_exceeded _); reflexivity. }
  rewrite (render_run _ _ Hi) by now rewrite Hq.
  now rewrite (updateCartBadge_run _ _ Hi).
Qed.

(** The cart and the entry that [removeItem] leaves, whether [render]
    returns or not. *)
Lemma removeItem_agree (productId : string) (w : World)
    (l : list LineItem.t) :
  items (this w) = ArrayOf l ->
  agree (exec (ShoppingCart.removeItem productId) w)
    (persisted (with_items (ArrayOf (removed productId l)) w)).
Proof.
  intros H. unfold exec, ShoppingCart.removeItem.
  unfold bind at 1. unfold this_items, bind at 1, get. rewrite H.
  unfold ret at 1. unfold bind. fold (removed productId l).
  change (set_items (ArrayOf (removed productId l)) w)
    with (Normal tt, with_items (ArrayOf (removed productId l)) w).
  cbv beta iota. rewrite saveToStorage_run.
  rewrite render_split.
  destruct (result ShoppingCart.render _).
  - rewrite updateCartBadge_split.
    destruct (result ShoppingCart.updateCartBadge _); split; reflexivity.
  - split; reflexivity.
Qed.

Lemma persisted_items (w : World) : items (this (persisted w)) = items (this w).
Proof. unfold persisted, saved. now destruct (quota_exceeded w). Qed.

Lemma persisted_this (w : World) : this (persisted w) = this w.
Proof. unfold persisted, saved. now destruct (quota_exceeded w). Qed.

Lemma persisted_page (w : World) : page (persisted w) = page w.
Proof. unfold persisted, saved. now destruct (quota_exceeded w). Qed.

Lemma updateQuantity_absent (productId : string) (quantity : Z) (w : World)
    (l : list LineItem.t) :
  items (this w) = ArrayOf l ->
  find (fun item => String.eqb (LineItem.id item) productId) l = None ->
  ShoppingCart.updateQuantity productId quantity w = (Normal tt, w).
Proof.
  intros H Hf. unfold ShoppingCart.updateQuantity.
  unfold bind at 1. unfold this_items, bind at 1, get. rewrite H.
  unfold ret at 1. now rewrite Hf.
Qed.

Lemma updateQuantity_delegates (productId : string) (quantity : Z)
    (w : World) (l : list LineItem.t) (item : LineItem.t) :
  items (this w) = ArrayOf l ->
  find (fun item => String.eqb (LineItem.id item) productId) l = Some item ->
  quantity <= 0 ->
  ShoppingCart.updateQuantity productId quantity w
  = ShoppingCart.removeItem productId w.
Proof.
  intros H Hf Hq. unfold ShoppingCart.updateQuantity.
  unfold bind at 1. unfold this_items, bind at 1, get. rewrite H.
  unfold ret at 1. rewrite Hf.
  now destruct (Z.leb_spec quantity 0); [| lia].
Qed.

Lemma updateQuantity_agree (productId : string) (quantity : Z) (w : World)
    (l : list LineItem.t) (item : LineItem.t) :
  items (this w) = ArrayOf l ->
  find (fun item => String.eqb (LineItem.id item) productId) l = Some item ->
  1 <= quantity ->
  agree (exec (ShoppingCart.updateQuantity productId quantity) w)
    (persisted
       (with_items
          (ArrayOf
             (update_first
                (fun item => String.eqb (LineItem.id item) productId)
                (LineItem.with_quantity quantity) l)) w)).
Proof.
  intros H Hf Hq. unfold exec, ShoppingCart.updateQuantity.
  unfold bind at 1. unfold this_items, bind at 1, get. rewrite H.
  unfold ret at 1. rewrite Hf.
  destruct (Z.leb_spec quantity 0); [lia |].
  unfold bind.
  match goal with
  | |- context [set_items ?v w] =>
      change (set_items v w) with (Normal tt, with_items v w)
  end.
  cbv beta iota. rewrite saveToStorage_run, render_split.
  destruct (result ShoppingCart.render _).
  - rewrite updateCartBadge_split. split; reflexivity.
  - split; reflexivity.
Qed.

Lemma updateQuantity_run (productId : string) (quantity : Z) (w : World)
    (l : list LineItem.t) (item : LineItem.t) :
  items (this w) = ArrayOf l ->
  page_complete (page w) ->
  find (fun item => String.eqb (LineItem.id item) productId) l = Some item ->
  1 <= quantity ->
  ShoppingCart.updateQuantity productId quantity w
  = (Normal tt,
     persisted
       (with_items
          (ArrayOf
             (update_first
                (fun item => String.eqb (LineItem.id item) productId)
                (LineItem.with_quantity quantity) l)) w)).
Proof.
  intros H Hp Hf Hq. unfold ShoppingCart.updateQuantity.
  unfold bind at 1. unfold this_items, bind at 1, get. rewrite H.
  unfold ret at 1. rewrite Hf.
  destruct (Z.leb_spec quantity 0); [lia |].
  unfold bind.
  match goal with
  | |- context [set_items ?v w] =>
      change (set_items v w) with (Normal tt, with_items v w)
  end.
  cbv beta iota. rewrite saveToStorage_run.
  match goal with
  | |- context [ShoppingCart.render ?w1] =>
      assert (Hi : exists l', items (this w1) = ArrayOf l')
        by (eexists; rewrite persisted_items; reflexivity);
      assert (Hq' : page w1 = page w) by now rewrite persisted_page
  end.
  destruct Hi as [l' Hi].
  rewrite (render_run _ _ Hi) by now rewrite Hq'.
  now rewrite (updateCartBadge_run _ _ Hi).
Qed.

Lemma clear_run (w : World) :
  ShoppingCart.clear true w
  = (Normal tt,
     with_shown Cart_cleared info (persisted (with_items (ArrayOf []) w))).
Proof.
  unfold ShoppingCart.clear, bind.
  change (set_items (ArrayOf []) w) with (Normal tt, with_items (ArrayOf []) w).
  cbv beta iota. rewrite saveToStorage_run.
  assert (Hi : items (this (persisted (with_items (ArrayOf []) w)))
               = ArrayOf []) by now rewrite persisted_items.
  assert (Hr : ShoppingCart.render (persisted (with_items (ArrayOf []) w))
               = (Normal tt, persisted (with_items (ArrayOf []) w))).
  { unfold ShoppingCart.render, bind, get, ret. rewrite Hi.
    now destruct (negb _). }
  rewrite Hr. now rewrite (updateCartBadge_run _ _ Hi).
Qed.

Lemma lookup_codes (key : string) (rate : number) :
  ShoppingCart.lookup key ShoppingCart.codes = Some rate ->
  (key = "SAVE10"%string /\ rate = 0.10%float)
  \/ (key = "SAVE15"%string /\ rate = 0.15%float).
Proof.
  unfold ShoppingCart.lookup, ShoppingCart.codes.
  destruct (String.eqb_spec "SAVE10" key) as [E | _].
  - intros [= <-]. now left.
  - destruct (String.eqb_spec "SAVE15" key) as [E | _]; [| discriminate].
    intros [= <-]. now right.
Qed.

Lemma codes_truthy (key : string) (rate : number) :
  ShoppingCart.lookup key ShoppingCart.codes = Some rate ->
  truthy rate = true.
Proof.
  intros H. destruct (lookup_codes key rate H) as [[_ ->] | [_ ->]];
    reflexivity.
Qed.

Lemma applyDiscountCode_guard (code : ShoppingCart.code_argument)
    (w : World) :
  code = ShoppingCart.NotAString
  \/ code = ShoppingCart.CodeString EmptyString ->
  ShoppingCart.applyDiscountCode code w
  = (Normal None, with_shown Enter_a_discount_code warning w).
Proof. intros [-> | ->]; reflexivity. Qed.

Lemma applyDiscountCode_no_match (s : string) (w : World) :
  s <> EmptyString ->
  ShoppingCart.lookup (toUpperCase (trim s)) ShoppingCart.codes = None ->
  ShoppingCart.applyDiscountCode (ShoppingCart.CodeString s) w
  = (Normal (Some false), with_shown Invalid_discount_code error w).
Proof.
  intros Hs H. destruct s as [| c s]; [contradiction |].
  unfold ShoppingCart.applyDiscountCode. now rewrite H.
Qed.

Lemma applyDiscountCode_agree (s : string) (rate : number) (w : World) :
  s <> EmptyString ->
  ShoppingCart.lookup (toUpperCase (trim s)) ShoppingCart.codes = Some rate ->
  agree (exec (ShoppingCart.applyDiscountCode (ShoppingCart.CodeString s)) w)
    (persisted (with_discountRate rate w)).
Proof.
  intros Hs H. destruct s as [| c s]; [contradiction |].
  unfold exec, ShoppingCart.applyDiscountCode. rewrite H.
  rewrite (codes_truthy _ _ H). unfold bind.
  change (set_discountRate rate w) with (Normal tt, with_discountRate rate w).
  cbv beta iota. rewrite saveToStorage_run, render_split.
  destruct (result ShoppingCart.render _); split; reflexivity.
Qed.


Lemma loadFromStorage_run (w : World) :
  ShoppingCart.loadFromStorage w = (Normal (loaded (localStorage w)), w).
Proof.
  unfold ShoppingCart.loadFromStorage, bind, get, ret, loaded.
  destruct (localStorage w) as [[| | | [l | [its |] r]] |]; reflexivity.
Qed.

Lemma constructor_this (w : World) :
  this (exec ShoppingCart.constructor w)
  = match loaded (localStorage w) with
    | ArrayOf l => mkCart (ArrayOf l) 0%float
    | Envelope (Some its) r => mkCart its (opt_or_zero r)
    | Envelope None _ => mkCart (ArrayOf []) 0%float
    end.
Proof.
  unfold exec, ShoppingCart.constructor, ShoppingCart.init, bind, set_this,
    ret.
  cbv beta iota. rewrite loadFromStorage_run. cbn [localStorage].
  destruct (loaded (localStorage w)) as [l | [its |] r]; reflexivity.
Qed.

Lemma on_storage_this (w : World) :
  this (exec (ShoppingCart.on_storage (Some STORAGE_KEY)) w)
  = mkCart (loaded (localStorage w)) (discountRate (this w)).
Proof.
  unfold exec, ShoppingCart.on_storage. rewrite String.eqb_refl.
  unfold bind. rewrite loadFromStorage_run.
  change (set_items (loaded (localStorage w)) w)
    with (Normal tt, with_items (loaded (localStorage w)) w).
  cbv beta iota. rewrite render_split.
  destruct (result ShoppingCart.render _); [| reflexivity].
  rewrite updateCartBadge_split. reflexivity.
Qed.

(** An array method on an [items] that is no array throws at once. *)
Lemma addItem_throws (product : option Product.t) (p : Product.t)
    (pid : primitive) (quantity : Z) (w : World) its r :
  ShoppingCart.product_with_id product = Some (p, pid) ->
  items (this w) = Envelope its r ->
  ShoppingCart.addItem product quantity w = (Throw TypeError, w).
Proof.
  intros Hp H. unfold ShoppingCart.addItem. rewrite Hp.
  unfold bind at 1. unfold this_items, bind at 1, get. now rewrite H.
Qed.

Lemma removeItem_throws (productId : string) (w : World) its r :
  items (this w) = Envelope its r ->
  ShoppingCart.removeItem productId w = (Throw TypeError, w).
Proof.
  intros H. unfold ShoppingCart.removeItem.
  unfold bind at 1. unfold this_items, bind at 1, get. now rewrite H.
Qed.

Lemma updateQuantity_throws (productId : string) (quantity : Z)
    (w : World) its r :
  items (this w) = Envelope its r ->
  ShoppingCart.updateQuantity productId quantity w = (Throw TypeError, w).
Proof.
  intros H. unfold ShoppingCart.updateQuantity.
  unfold bind at 1. unfold this_items, bind at 1, get. now rewrite H.
Qed.

(** ** Totals (C1, C9, C10) *)

Lemma plain_items (l : list LineItem.t) :
  Forall (fun item => plain (LineItem.discount item)) l ->
  map (fun item =>
         LineItem.mk (LineItem.id item) (LineItem.name item)
           (LineItem.price item) (LineItem.quantity item)
           (LineItem.imageUrl item) (LineItem.category item)
           (or_zero (LineItem.discount item))) l
  = l.
Proof.
  induction 1 as [| x l Hx _ IH]; simpl; [reflexivity |].
  rewrite IH, (or_zero_plain _ Hx). now destruct x.
Qed.

(** C1. For a cart whose discounts and rate are numbers that [|| 0] leaves
    alone, [getTotals] returns the totals of the algorithm: the subtotal is
    the sum of price times quantity, the per-item discount the sum of price
    times (discount / 100) times quantity, the global rate applies to what
    the per-item discounts leave, the tax is a tenth of the non-negative
    part of the discounted subtotal, the total adds the tax, and the item
    count is the sum of the quantities. One item at 10.00, twice, 10 percent
    off, under the rate 0.10 gives 20, 3.80, 16.20, 1.62, 17.82 and 2: the
    very doubles that these decimals denote. *)
Theorem getTotals_follows_the_algorithm :
  (forall (w : World) (l : list LineItem.t),
      items (this w) = ArrayOf l ->
      Forall (fun item => plain (LineItem.discount item)) l ->
      plain (discountRate (this w)) ->
      ShoppingCart.getTotals w
      = (Normal (totals_of l (discountRate (this w))), w))
  /\ (forall (id : string) (name : option string) (imageUrl category : string)
        (storage : option entry) (quota : bool) (pg : Page)
        (msgs : list (message * severity)),
        result ShoppingCart.getTotals
          (mkWorld
             (mkCart
                (ArrayOf
                   [LineItem.mk id name 10.00%float 2 imageUrl category
                      10%float])
                0.10%float)
             storage quota pg msgs)
        = Normal
            (Totals.mk 20.00%float 3.80%float 16.20%float 1.62%float
               17.82%float 2)).
Proof.
  split.
  - intros w l H Hl Hr. rewrite (getTotals_run w l H).
    now rewrite (plain_items l Hl), (or_zero_plain _ Hr).
  - intros. vm_compute. reflexivity.
Qed.

Lemma getTotals_follows_the_algorithm_witness :
  ShoppingCart.getTotals discounted_world
  = (Normal (totals_of [ten_twice] 0.10%float), discounted_world).
Proof.
  apply (proj1 getTotals_follows_the_algorithm discounted_world [ten_twice]).
  - reflexivity.
  - constructor; [left; reflexivity | constructor].
  - left; reflexivity.
Defined.

(** The example of C1 with the rate applied through a valid code. *)
Example totals_after_a_valid_code :
  result
    (ShoppingCart.addItem (Some chips) 2 ;;
     ShoppingCart.applyDiscountCode (ShoppingCart.CodeString "SAVE10") ;;
     ShoppingCart.getTotals)
    empty_world
  = Normal
      (Totals.mk 20.00%float 3.80%float 16.20%float 1.62%float 17.82%float 2).
Proof. vm_compute. reflexivity. Qed.

(** C9. [getTotals] leaves the world as it found it, and a second call
    right after the first returns what the first returned. *)
Theorem getTotals_is_pure (w : World) :
  let (t1, w1) := ShoppingCart.getTotals w in
  let (t2, w2) := ShoppingCart.getTotals w1 in
  w1 = w /\ w2 = w /\ t2 = t1.
Proof.
  destruct (items (this w)) as [l | its r] eqn:H.
  - rewrite (getTotals_run w l H), (getTotals_run w l H). auto.
  - rewrite (getTotals_throws w its r H), (getTotals_throws w its r H). auto.
Qed.

Lemma getTotals_itemCount (w : World) (l : list LineItem.t) :
  items (this w) = ArrayOf l ->
  result (t <- ShoppingCart.getTotals ;; ret (Totals.itemCount t)) w
  = Normal (sum_quantities l).
Proof.
  intros H. unfold result, bind. rewrite (getTotals_run w l H).
  unfold ret, totals_of, sum_quantities. simpl. now rewrite map_map.
Qed.

Lemma getCheckoutData_itemCount (w : World) :
  result (d <- ShoppingCart.getCheckoutData ;; ret (CheckoutData.itemCount d)) w
  = result (t <- ShoppingCart.getTotals ;; ret (Totals.itemCount t)) w.
Proof.
  unfold result, ShoppingCart.getCheckoutData, bind.
  destruct (items (this w)) as [l | its r] eqn:H.
  - rewrite (getTotals_run w l H). unfold this_items, bind, get, ret.
    now rewrite H.
  - now rewrite (getTotals_throws w its r H).
Qed.

(** C10. The badge value [getItemCount()], the [itemCount] of [getTotals()]
    and the [itemCount] of [getCheckoutData()] are one value, the sum of the
    quantities of the line items; on an [items] that is no array all three
    calls throw. *)
Theorem item_counts_agree (w : World) :
  result ShoppingCart.getItemCount w
  = match items (this w) with
    | ArrayOf l => Normal (sum_quantities l)
    | Envelope _ _ => Throw TypeError
    end
  /\ result (t <- ShoppingCart.getTotals ;; ret (Totals.itemCount t)) w
     = result ShoppingCart.getItemCount w
  /\ result (d <- ShoppingCart.getCheckoutData ;;
             ret (CheckoutData.itemCount d)) w
     = result ShoppingCart.getItemCount w.
Proof.
  assert (Ht : result (t <- ShoppingCart.getTotals ;;
                       ret (Totals.itemCount t)) w
               = result ShoppingCart.getItemCount w).
  { destruct (items (this w)) as [l | its r] eqn:H.
    - rewrite (getTotals_itemCount w l H). unfold result.
      now rewrite (getItemCount_run w l H).
    - unfold result, bind.
      now rewrite (getTotals_throws w its r H),
        (getItemCount_throws w its r H). }
  repeat split.
  - unfold result. destruct (items (this w)) as [l | its r] eqn:H.
    + now rewrite (getItemCount_run w l H).
    + now rewrite (getItemCount_throws w its r H).
  - exact Ht.
  - now rewrite getCheckoutData_itemCount.
Qed.

(** ** The cart and the stored entry after an operation *)

Lemma agree_refl (w : World) : agree w w.
Proof. split; reflexivity. Qed.

Lemma agree_with_shown (m : message) (s : severity) (w : World) :
  agree (with_shown m s w) w.
Proof. split; reflexivity. Qed.

Lemma exec_then_ret {A} (m : M A) (w : World) :
  exec (m ;; ret tt) w = exec m w.
Proof.
  unfold exec, bind, ret. destruct (m w) as [[a | e] w']; reflexivity.
Qed.

Lemma run_agree (op : operation) (w : World) :
  agree (exec (run op) w) (after op w).
Proof.
  destruct op as [product quantity | productId | productId quantity
                 | confirmed | code]; unfold run, after.
  - rewrite exec_then_ret. unfold exec.
    destruct (ShoppingCart.product_with_id product) as [[p pid] |] eqn:Hp.
    + destruct (items (this w)) as [l | its r] eqn:H.
      * rewrite (addItem_run product p pid quantity w l Hp H).
        apply agree_with_shown.
      * rewrite (addItem_throws product p pid quantity w its r Hp H).
        apply agree_refl.
    + rewrite (addItem_invalid product quantity w Hp).
      apply agree_with_shown.
  - destruct (items (this w)) as [l | its r] eqn:H.
    + now apply removeItem_agree.
    + unfold exec. rewrite (removeItem_throws productId w its r H).
      apply agree_refl.
  - destruct (items (this w)) as [l | its r] eqn:H.
    + destruct (find _ l) as [item |] eqn:Hf.
      * destruct (Z.leb_spec quantity 0) as [Hq | Hq].
        -- unfold exec.
           rewrite (updateQuantity_delegates productId quantity w l item
                      H Hf Hq).
           now apply removeItem_agree.
        -- apply (updateQuantity_agree productId quantity w l item H Hf).
           lia.
      * unfold exec.
        rewrite (updateQuantity_absent productId quantity w l H Hf).
        apply agree_refl.
    + unfold exec. rewrite (updateQuantity_throws productId quantity w its r H).
      apply agree_refl.
  - destruct confirmed.
    + unfold exec. rewrite clear_run. apply agree_with_shown.
    + apply agree_refl.
  - rewrite exec_then_ret.
    destruct code as [[| c s] |].
    + unfold exec. rewrite applyDiscountCode_guard by now right.
      apply agree_with_shown.
    + destruct (ShoppingCart.lookup _ ShoppingCart.codes) as [rate |] eqn:Hl.
      * now apply applyDiscountCode_agree.
      * unfold exec. rewrite applyDiscountCode_no_match by easy.
        apply agree_with_shown.
    + unfold exec. rewrite applyDiscountCode_guard by now left.
      apply agree_with_shown.
Qed.

(** ** Validity of the product (C8) *)

Lemma id_missing_iff (product : option Product.t) :
  id_missing product <-> ShoppingCart.product_with_id product = None.
Proof.
  unfold id_missing, ShoppingCart.product_with_id.
  destruct product as [p |]; [| tauto].
  destruct (Product.id p) as [v |]; [| tauto].
  destruct (truthy_id v); split; intros H; try discriminate; reflexivity.
Qed.

(** C8. [addItem] returns [false] exactly when the product or its
    identifier is missing (absent or falsy), and then the world is as
    before but for the notification; in every other case, whatever the name
    of the product, it returns [true]. *)
Theorem addItem_fails_only_without_an_id (product : option Product.t)
    (quantity : Z) (w : World) (l : list LineItem.t) :
  items (this w) = ArrayOf l ->
  (id_missing product ->
   ShoppingCart.addItem product quantity w
   = (Normal false, with_shown Invalid_product error w))
  /\ (~ id_missing product ->
      result (ShoppingCart.addItem product quantity) w = Normal true).
Proof.
  intros H. split; intros Hm.
  - apply addItem_invalid. now apply id_missing_iff.
  - destruct (ShoppingCart.product_with_id product) as [[p pid] |] eqn:Hp.
    + unfold result. now rewrite (addItem_run product p pid quantity w l Hp H).
    + exfalso. apply Hm. now apply id_missing_iff.
Qed.

Lemma addItem_fails_only_without_an_id_witness :
  (id_missing (Some chips) ->
   ShoppingCart.addItem (Some chips) 1 empty_world
   = (Normal false, with_shown Invalid_product error empty_world))
  /\ (~ id_missing (Some chips) ->
      result (ShoppingCart.addItem (Some chips) 1) empty_world = Normal true).
Proof.
  apply (addItem_fails_only_without_an_id (Some chips) 1 empty_world []).
  reflexivity.
Defined.

(** ** Quantities (C7, C6) *)

Lemma find_by_id_none (productId : string) (l : list LineItem.t) :
  find (fun item => String.eqb (LineItem.id item) productId) l = None
  <-> ~ In productId (map LineItem.id l).
Proof.
  rewrite find_none_absent, Forall_forall, in_map_iff. split.
  - intros H (x & Hx & Hin). specialize (H x Hin).
    rewrite Hx, String.eqb_refl in H. discriminate.
  - intros H x Hin. apply String.eqb_neq. intros E. apply H. now exists x.
Qed.

Lemma removed_absent (productId : string) (l : list LineItem.t) :
  ~ In productId (map LineItem.id l) -> removed productId l = l.
Proof.
  intros H. apply find_by_id_none, find_none_absent in H.
  now apply filter_absent.
Qed.

Lemma removed_has_no_such_id (productId : string) (l : list LineItem.t) :
  ~ In productId (map LineItem.id (removed productId l)).
Proof.
  apply find_by_id_none, find_none_absent. unfold removed.
  apply (filter_removes
           (fun item => String.eqb (LineItem.id item) productId)).
Qed.

(** C7. On a cart whose [items] is an array: [updateQuantity] with a
    quantity of zero or less leaves the cart that [removeItem] leaves, with
    no item of that id in it; with a quantity of one or more it gives the
    first item of that id exactly that quantity and keeps every other item;
    without an item of that id it changes nothing at all; and [removeItem]
    for an id that is not in the cart returns normally and leaves the cart
    as it was. *)
Theorem updateQuantity_sets_or_removes (productId : string) (quantity : Z)
    (w : World) (l : list LineItem.t) :
  items (this w) = ArrayOf l ->
  (quantity <= 0 ->
   this (exec (ShoppingCart.updateQuantity productId quantity) w)
   = this (exec (ShoppingCart.removeItem productId) w)
   /\ this (exec (ShoppingCart.updateQuantity productId quantity) w)
      = mkCart (ArrayOf (removed productId l)) (discountRate (this w))
   /\ ~ In productId (map LineItem.id (removed productId l)))
  /\ (1 <= quantity ->
      forall item : LineItem.t,
        find (fun item => String.eqb (LineItem.id item) productId) l
        = Some item ->
        exists l1 l2,
          l = l1 ++ item :: l2
          /\ ~ In productId (map LineItem.id l1)
          /\ this (exec (ShoppingCart.updateQuantity productId quantity) w)
             = mkCart
                 (ArrayOf (l1 ++ LineItem.with_quantity quantity item :: l2))
                 (discountRate (this w)))
  /\ (~ In productId (map LineItem.id l) ->
      ShoppingCart.updateQuantity productId quantity w = (Normal tt, w))
  /\ (~ In productId (map LineItem.id l) ->
      page_complete (page w) ->
      result (ShoppingCart.removeItem productId) w = Normal tt
      /\ this (exec (ShoppingCart.removeItem productId) w) = this w).
Proof.
  intros H.
  assert (Hrem : this (exec (ShoppingCart.removeItem productId) w)
                 = mkCart (ArrayOf (removed productId l))
                     (discountRate (this w))).
  { destruct (removeItem_agree productId w l H) as [-> _].
    now rewrite persisted_this. }
  split; [| split; [| split]].
  - intros Hq. split; [| split].
    + destruct (find (fun item => String.eqb (LineItem.id item) productId) l)
        as [item |] eqn:Hf.
      * unfold exec.
        now rewrite (updateQuantity_delegates productId quantity w l item
                       H Hf).
      * unfold exec at 1.
        rewrite (updateQuantity_absent productId quantity w l H Hf), Hrem.
        apply find_by_id_none in Hf. rewrite (removed_absent _ _ Hf).
        simpl. rewrite <- H. now destruct (this w).
    + destruct (find (fun item => String.eqb (LineItem.id item) productId) l)
        as [item |] eqn:Hf.
      * unfold exec.
        rewrite (updateQuantity_delegates productId quantity w l item H Hf)
          by assumption.
        exact Hrem.
      * unfold exec.
        rewrite (updateQuantity_absent productId quantity w l H Hf).
        apply find_by_id_none in Hf. rewrite (removed_absent _ _ Hf).
        simpl. rewrite <- H. now destruct (this w).
    + apply removed_has_no_such_id.
  - intros Hq item Hf.
    destruct (update_first_split _ (LineItem.with_quantity quantity) l item Hf)
      as (l1 & l2 & Hl & Hl1 & Hu).
    exists l1, l2. split; [exact Hl | split].
    + now apply find_by_id_none, find_none_absent.
    + destruct (updateQuantity_agree productId quantity w l item H Hf Hq)
        as [-> _].
      rewrite persisted_this. simpl. now rewrite Hu.
  - intros Hn. apply find_by_id_none in Hn.
    now apply (updateQuantity_absent productId quantity w l).
  - intros Hn Hp. split.
    + unfold result. now rewrite (removeItem_run productId w l H).
    + rewrite Hrem, (removed_absent _ _ Hn). rewrite <- H.
      now destruct (this w).
Qed.

Lemma updateQuantity_sets_or_removes_witness :
  (0 <= 0 ->
   this (exec (ShoppingCart.updateQuantity "a" 0) discounted_world)
   = this (exec (ShoppingCart.removeItem "a") discounted_world)
   /\ this (exec (ShoppingCart.updateQuantity "a" 0) discounted_world)
      = mkCart (ArrayOf (removed "a" [ten_twice]))
          (discountRate (this discounted_world))
   /\ ~ In "a"%string (map LineItem.id (removed "a" [ten_twice])))
  /\ (1 <= 0 ->
      forall item : LineItem.t,
        find (fun item => String.eqb (LineItem.id item) "a") [ten_twice]
        = Some item ->
        exists l1 l2,
          [ten_twice] = l1 ++ item :: l2
          /\ ~ In "a"%string (map LineItem.id l1)
          /\ this (exec (ShoppingCart.updateQuantity "a" 0) discounted_world)
             = mkCart (ArrayOf (l1 ++ LineItem.with_quantity 0 item :: l2))
                 (discountRate (this discounted_world)))
  /\ (~ In "a"%string (map LineItem.id [ten_twice]) ->
      ShoppingCart.updateQuantity "a" 0 discounted_world
      = (Normal tt, discounted_world))
  /\ (~ In "a"%string (map LineItem.id [ten_twice]) ->
      page_complete (page discounted_world) ->
      result (ShoppingCart.removeItem "a") discounted_world = Normal tt
      /\ this (exec (ShoppingCart.removeItem "a") discounted_world)
         = this discounted_world).
Proof.
  apply (updateQuantity_sets_or_removes "a" 0 discounted_world [ten_twice]).
  reflexivity.
Defined.

Lemma Forall_update_first (P : LineItem.t -> Prop) (p : LineItem.t -> bool)
    (f : LineItem.t -> LineItem.t) (l : list LineItem.t) :
  (forall x, P x -> P (f x)) -> Forall P l -> Forall P (update_first p f l).
Proof.
  intros Hf. induction 1 as [| x l Hx Hl IH]; simpl; [constructor |].
  destruct (p x); constructor; auto.
Qed.

Lemma Forall_removed (P : LineItem.t -> Prop) (productId : string)
    (l : list LineItem.t) :
  Forall P l -> Forall P (removed productId l).
Proof.
  rewrite !Forall_forall. intros H x Hx. apply filter_In in Hx. now apply H.
Qed.

Lemma Forall_added (pid : primitive) (p : Product.t) (quantity : Z)
    (l : list LineItem.t) :
  1 <= quantity ->
  Forall (fun item => 1 <= LineItem.quantity item) l ->
  Forall (fun item => 1 <= LineItem.quantity item) (added pid p quantity l).
Proof.
  intros Hq Hl. unfold added. destruct (find _ l).
  - apply Forall_update_first; [| exact Hl]. intros x Hx. simpl. lia.
  - apply Forall_app. split; [exact Hl |]. now repeat constructor.
Qed.

Lemma items_persisted_with_items (v : value) (w : World) :
  items (this (persisted (with_items v w))) = v.
Proof. now rewrite persisted_items. Qed.

(** C6, as stated, fails: [addItem] with the quantity 0 stores a line whose
    quantity is 0. *)
Lemma addItem_stores_a_zero_quantity :
  quantities_positive empty_world
  /\ items (this (exec (run (AddItem (Some chips) 0)) empty_world))
     = ArrayOf [line "a" 0]
  /\ ~ quantities_positive (exec (run (AddItem (Some chips) 0)) empty_world).
Proof.
  split; [| split].
  - intros l [= <-]. constructor.
  - reflexivity.
  - intros H. specialize (H [line "a" 0] eq_refl).
    inversion H as [| x l' Hx _]. simpl in Hx. lia.
Qed.

(** C6, amended. When every line item has a quantity of at least one, so
    it has after [addItem] with a quantity of at least one, after
    [updateQuantity] with any integer, after [removeItem] and after
    [clear]; a discount code does not touch the items. *)
Theorem quantities_stay_positive (op : operation) (w : World) :
  (forall product quantity, op = AddItem product quantity -> 1 <= quantity) ->
  quantities_positive w ->
  quantities_positive (exec (run op) w).
Proof.
  intros Hop Hw l'. destruct (run_agree op w) as [-> _].
  unfold quantities_positive in Hw.
  destruct op as [product quantity | productId | productId quantity
                 | confirmed | code]; unfold after.
  - destruct (ShoppingCart.product_with_id product) as [[p pid] |];
      [| apply Hw].
    destruct (items (this w)) as [l | its r] eqn:H; [| now rewrite H].
    rewrite items_persisted_with_items. intros [= <-].
    apply Forall_added; [now apply (Hop product) | now apply Hw].
  - destruct (items (this w)) as [l | its r] eqn:H; [| now rewrite H].
    rewrite items_persisted_with_items. intros [= <-].
    apply Forall_removed. now apply Hw.
  - destruct (items (this w)) as [l | its r] eqn:H; [| now rewrite H].
    destruct (find _ l); [| rewrite H; intros [= <-]; now apply Hw].
    destruct (Z.leb_spec quantity 0) as [Hq | Hq];
      rewrite items_persisted_with_items; intros [= <-].
    + apply Forall_removed. now apply Hw.
    + apply Forall_update_first; [| now apply Hw]. intros x _. simpl. lia.
  - destruct confirmed; [| apply Hw].
    rewrite items_persisted_with_items. intros [= <-]. constructor.
  - destruct code as [[| c s] |]; try apply Hw.
    destruct (ShoppingCart.lookup _ _); [| apply Hw].
    rewrite persisted_items. apply Hw.
Qed.

Lemma quantities_stay_positive_witness :
  quantities_positive (exec (run (AddItem (Some chips) 3)) discounted_world).
Proof.
  apply (quantities_stay_positive (AddItem (Some chips) 3) discounted_world).
  - intros product quantity [= _ <-]. lia.
  - intros l [= <-]. repeat constructor. simpl. lia.
Defined.

(** The numbers that the operations write are plain: the premise of C1
    holds of every cart that the operations build from a fresh engine. *)
Lemma plain_cart_empty : plain_cart empty_world.
Proof.
  split; [now right |]. intros l [= <-]. constructor.
Qed.

Lemma plain_cart_same (w w' : World) :
  this w' = this w -> plain_cart w -> plain_cart w'.
Proof. unfold plain_cart. now intros ->. Qed.

Lemma plain_cart_items (w w' : World) (l' : list LineItem.t) :
  this w' = mkCart (ArrayOf l') (discountRate (this w)) ->
  plain_cart w ->
  Forall (fun item => plain (LineItem.discount item)) l' ->
  plain_cart w'.
Proof.
  unfold plain_cart. intros -> [Hr _] Hl. split; [exact Hr |].
  now intros l [= <-].
Qed.

Lemma plain_cart_run (op : operation) (w : World) :
  plain_cart w -> plain_cart (exec (run op) w).
Proof.
  intros Hw. apply (plain_cart_same (after op w)).
  { now destruct (run_agree op w). }
  destruct op as [product quantity | productId | productId quantity
                 | confirmed | code]; unfold after.
  - destruct (ShoppingCart.product_with_id product) as [[p pid] |];
      [| exact Hw].
    destruct (items (this w)) as [l | its r] eqn:H; [| exact Hw].
    apply (plain_cart_items w _ (added pid p quantity l));
      [now rewrite persisted_this | exact Hw |].
    destruct Hw as [_ Hw]. specialize (Hw l H).
    unfold added. destruct (find _ l).
    + apply Forall_update_first; [| exact Hw]. now intros x Hx.
    + apply Forall_app. split; [exact Hw |].
      constructor; [| constructor]. simpl.
      destruct (Product.discount p); [apply plain_or_zero | now right].
  - destruct (items (this w)) as [l | its r] eqn:H; [| exact Hw].
    apply (plain_cart_items w _ (removed productId l));
      [now rewrite persisted_this | exact Hw |].
    apply Forall_removed. now apply Hw.
  - destruct (items (this w)) as [l | its r] eqn:H; [| exact Hw].
    destruct (find _ l); [| exact Hw].
    destruct (quantity <=? 0).
    + apply (plain_cart_items w _ (removed productId l));
        [now rewrite persisted_this | exact Hw |].
      apply Forall_removed. now apply Hw.
    + eapply (plain_cart_items w);
        [rewrite persisted_this; reflexivity | exact Hw |].
      apply Forall_update_first; [| now apply Hw]. now intros x Hx.
  - destruct confirmed; [| exact Hw].
    apply (plain_cart_items w _ []);
      [now rewrite persisted_this | exact Hw | constructor].
  - destruct code as [[| c s] |]; try exact Hw.
    destruct (ShoppingCart.lookup _ _) as [rate |] eqn:Hl; [| exact Hw].
    destruct Hw as [_ Hw]. split.
    + rewrite persisted_this. left. exact (codes_truthy _ _ Hl).
    + now rewrite persisted_items.
Qed.

Lemma plain_cart_runs (ops : list operation) (w : World) :
  plain_cart w ->
  plain_cart (fold_left (fun w op => exec (run op) w) ops w).
Proof.
  revert w. induction ops as [| op ops IH]; intros w Hw; simpl.
  - exact Hw.
  - apply IH. now apply plain_cart_run.
Qed.

(** After any operations on a fresh engine, [getTotals] returns the totals
    of the algorithm. *)
Corollary getTotals_after_operations (ops : list operation)
    (l : list LineItem.t) :
  let w := fold_left (fun w op => exec (run op) w) ops empty_world in
  items (this w) = ArrayOf l ->
  result ShoppingCart.getTotals w
  = Normal (totals_of l (discountRate (this w))).
Proof.
  intros w H.
  destruct (plain_cart_runs ops empty_world plain_cart_empty) as [Hr Hl].
  fold w in Hr, Hl. unfold result. rewrite (getTotals_run w l H).
  now rewrite (plain_items l (Hl l H)), (or_zero_plain _ Hr).
Qed.

(** ** Persistence (C3) *)

Lemma persisted_entry (w : World) :
  localStorage (persisted w) = localStorage w
  \/ localStorage (persisted w)
     = Some (Json (Envelope (Some (items (this (persisted w))))
                     (Some (discountRate (this (persisted w)))))).
Proof.
  unfold persisted, saved. destruct (quota_exceeded w); [now left | now right].
Qed.

(** C3. A cart whose numbers JSON carries, saved to a storage that takes
    the write, is read back by a new engine on that storage with the same
    items and the same rate; a stored bare array becomes the items, with
    the rate 0; and whenever an operation writes to the storage, what it
    writes is the envelope [{items, discountRate}] of the cart. *)
Theorem storage_round_trip :
  (forall w w' : World,
      quota_exceeded w = false ->
      json_cart (this w) ->
      localStorage w' = localStorage (exec ShoppingCart.saveToStorage w) ->
      this (exec ShoppingCart.constructor w') = this w)
  /\ (forall (w : World) (l : list LineItem.t),
        localStorage w = Some (Json (ArrayOf l)) ->
        this (exec ShoppingCart.constructor w) = mkCart (ArrayOf l) 0%float)
  /\ (forall (op : operation) (w : World),
        let w' := exec (run op) w in
        localStorage w' = localStorage w
        \/ localStorage w'
           = Some (Json (Envelope (Some (items (this w')))
                           (Some (discountRate (this w')))))).
Proof.
  split; [| split].
  - intros w w' Hq [_ [_ Hr]] Hs. rewrite constructor_this, Hs.
    unfold exec. rewrite saveToStorage_run. unfold persisted. rewrite Hq.
    simpl. rewrite (or_zero_plain _ Hr). now destruct (this w).
  - intros w l H. now rewrite constructor_this, H.
  - intros op w w'. subst w'. destruct (run_agree op w) as [-> ->].
    assert (P : forall w1, localStorage w1 = localStorage w ->
                localStorage (persisted w1) = localStorage w
                \/ localStorage (persisted w1)
                   = Some (Json (Envelope (Some (items (this (persisted w1))))
                                   (Some (discountRate (this (persisted w1))))))).
    { intros w1 E. rewrite <- E. apply persisted_entry. }
    destruct op as [product quantity | productId | productId quantity
                   | confirmed | code]; unfold after.
    + destruct (ShoppingCart.product_with_id product) as [[p pid] |];
        [| now left].
      destruct (items (this w)); [now apply P | now left].
    + destruct (items (this w)); [now apply P | now left].
    + destruct (items (this w)) as [l |]; [| now left].
      destruct (find _ l); [| now left].
      destruct (quantity <=? 0); now apply P.
    + destruct confirmed; [now apply P | now left].
    + destruct code as [[| c s] |]; try now left.
      destruct (ShoppingCart.lookup _ _); [now apply P | now left].
Qed.

Lemma storage_round_trip_witness :
  this (exec ShoppingCart.constructor
          (exec ShoppingCart.saveToStorage discounted_world))
  = this discounted_world.
Proof.
  apply (proj1 storage_round_trip discounted_world
           (exec ShoppingCart.saveToStorage discounted_world)).
  - reflexivity.
  - repeat split; try reflexivity; try (left; reflexivity).
    constructor; [| constructor].
    repeat split; try reflexivity; left; reflexivity.
  - reflexivity.
Defined.

(** ** Repeated [addItem] (C2) *)

Lemma with_quantity_same (item : LineItem.t) :
  LineItem.with_quantity (LineItem.quantity item) item = item.
Proof.
  now destruct item.
Qed.

Lemma addItem_items (p : Product.t) (pid : primitive) (quantity : Z)
    (w : World) (l : list LineItem.t) :
  Product.id p = Some pid ->
  truthy_id pid = true ->
  items (this w) = ArrayOf l ->
  items (this (exec (ShoppingCart.addItem (Some p) quantity) w))
  = ArrayOf (added pid p quantity l).
Proof.
  intros Hid Ht H.
  assert (Hp : ShoppingCart.product_with_id (Some p) = Some (p, pid)).
  { unfold ShoppingCart.product_with_id. now rewrite Hid, Ht. }
  unfold exec. rewrite (addItem_run (Some p) p pid quantity w l Hp H).
  simpl. now rewrite persisted_items.
Qed.

Lemma exec_bind {A B} (m : M A) (k : A -> M B) (w : World) (a : A) :
  result m w = Normal a ->
  exec (bind m k) w = exec (k a) (exec m w).
Proof.
  unfold result, exec, bind. destruct (m w) as [c w']. simpl.
  now intros ->.
Qed.

Lemma addItem_returns (p : Product.t) (pid : primitive) (quantity : Z)
    (w : World) (l : list LineItem.t) :
  Product.id p = Some pid ->
  truthy_id pid = true ->
  items (this w) = ArrayOf l ->
  result (ShoppingCart.addItem (Some p) quantity) w = Normal true.
Proof.
  intros Hid Ht H.
  assert (Hp : ShoppingCart.product_with_id (Some p) = Some (p, pid)).
  { unfold ShoppingCart.product_with_id. now rewrite Hid, Ht. }
  unfold result. now rewrite (addItem_run (Some p) p pid quantity w l Hp H).
Qed.

(** Once the item of a string id is the last of the list and the only one
    of that id, further calls add to its quantity. *)
Lemma addItems_existing (p : Product.t) (s : string) (quantities : list Z) :
  Product.id p = Some (IdString s) ->
  s <> EmptyString ->
  forall (w : World) (l : list LineItem.t) (item : LineItem.t),
    items (this w) = ArrayOf (l ++ [item]) ->
    ~ In s (map LineItem.id l) ->
    LineItem.id item = s ->
    items (this (exec (addItems (Some p) quantities) w))
    = ArrayOf
        (l ++ [LineItem.with_quantity
                 (fold_left Z.add quantities (LineItem.quantity item)) item]).
Proof.
  intros Hid Hs.
  assert (Ht : truthy_id (IdString s) = true).
  { simpl. apply negb_true_iff. now apply String.eqb_neq. }
  induction quantities as [| q qs IH]; intros w l item H Hl Hi.
  - simpl. now rewrite with_quantity_same.
  - simpl addItems.
    rewrite (exec_bind _ _ w true)
      by exact (addItem_returns p _ q w _ Hid Ht H).
    assert (Habs : Forall
                     (fun y => strict_equal (LineItem.id y) (IdString s)
                               = false) l).
    { apply Forall_forall. intros y Hy. simpl. apply String.eqb_neq.
      intros E. apply Hl. apply in_map_iff. now exists y. }
    assert (Hsame : strict_equal (LineItem.id item) (IdString s) = true).
    { simpl. rewrite Hi. apply String.eqb_refl. }
    rewrite (IH _ l (LineItem.with_quantity (LineItem.quantity item + q) item)).
    + simpl. reflexivity.
    + rewrite (addItem_items p _ q w _ Hid Ht H). unfold added.
      rewrite (find_after_absent _ l item Habs Hsame).
      now rewrite (update_first_after_absent _ _ l item Habs Hsame).
    + exact Hl.
    + exact Hi.
Qed.

(** For a product whose id is a non-empty string: after [addItem] with the
    quantities [q :: quantities] on a cart with no item of that id, the
    cart has one more line, the only one of that id, and its quantity is
    the sum of the quantities. *)
Lemma addItems_string_id (p : Product.t) (s : string) (q : Z)
    (quantities : list Z) (w : World) (l : list LineItem.t) :
  Product.id p = Some (IdString s) ->
  s <> EmptyString ->
  items (this w) = ArrayOf l ->
  ~ In s (map LineItem.id l) ->
  exists item : LineItem.t,
    items (this (exec (addItems (Some p) (q :: quantities)) w))
    = ArrayOf (l ++ [item])
    /\ LineItem.id item = s
    /\ LineItem.quantity item = fold_left Z.add quantities q.
Proof.
  intros Hid Hs H Hl.
  assert (Ht : truthy_id (IdString s) = true).
  { simpl. apply negb_true_iff. now apply String.eqb_neq. }
  set (new := LineItem.mk s (Product.name p) (Product.price p) q
                (or_empty (Product.imageUrl p))
                (or_empty (Product.category p))
                (opt_or_zero (Product.discount p))).
  exists (LineItem.with_quantity (fold_left Z.add quantities q) new).
  split; [| split; reflexivity].
  simpl addItems.
  rewrite (exec_bind _ _ w true)
    by exact (addItem_returns p _ q w _ Hid Ht H).
  apply (addItems_existing p s quantities Hid Hs _ l new); [| exact Hl | easy].
  rewrite (addItem_items p _ q w _ Hid Ht H). unfold added.
  assert (Hf : find (fun item => strict_equal (LineItem.id item) (IdString s)) l
               = None).
  { simpl. now apply find_by_id_none. }
  now rewrite Hf.
Qed.

(** [addItem] with a string id keeps the ids of the cart distinct. *)
Lemma addItem_string_id_keeps_ids_distinct (p : Product.t) (s : string)
    (q : Z) (w : World) (l : list LineItem.t) :
  Product.id p = Some (IdString s) ->
  s <> EmptyString ->
  items (this w) = ArrayOf l ->
  NoDup (map LineItem.id l) ->
  exists l', items (this (exec (ShoppingCart.addItem (Some p) q) w))
             = ArrayOf l'
             /\ NoDup (map LineItem.id l').
Proof.
  intros Hid Hs H Hn.
  assert (Ht : truthy_id (IdString s) = true).
  { simpl. apply negb_true_iff. now apply String.eqb_neq. }
  exists (added (IdString s) p q l). split.
  - exact (addItem_items p _ q w _ Hid Ht H).
  - unfold added.
    destruct (find (fun item => strict_equal (LineItem.id item) (IdString s)) l)
      eqn:Hf.
    + now rewrite update_first_ids.
    + rewrite map_app. simpl.
      apply find_by_id_none in Hf.
      apply NoDup_app; [exact Hn | repeat constructor; easy |].
      intros x Hx [<- | []]. contradiction.
Qed.

(** With a numeric id the comparison [item.id === product.id] sets the
    stored string against the number, so no line is ever found: every call
    appends. *)
Lemma addItem_number_id_appends (p : Product.t) (n : Z) (q : Z) (w : World)
    (l : list LineItem.t) :
  Product.id p = Some (IdNumber n) ->
  n <> 0 ->
  items (this w) = ArrayOf l ->
  items (this (exec (ShoppingCart.addItem (Some p) q) w))
  = ArrayOf
      (l ++ [LineItem.mk (String_of (IdNumber n)) (Product.name p)
               (Product.price p) q (or_empty (Product.imageUrl p))
               (or_empty (Product.category p))
               (opt_or_zero (Product.discount p))]).
Proof.
  intros Hid Hn H.
  assert (Ht : truthy_id (IdNumber n) = true).
  { simpl. apply negb_true_iff. now apply Z.eqb_neq. }
  rewrite (addItem_items p _ q w _ Hid Ht H). unfold added.
  assert (Hf : find (fun item => strict_equal (LineItem.id item) (IdNumber n)) l
               = None).
  { apply find_none_absent. apply Forall_forall. reflexivity. }
  now rewrite Hf.
Qed.

(** C2, on the code: for a product whose id is a number, two calls of
    [addItem] on a cart with no item of that id leave two lines with the id
    [String(id)], one per call and each with the quantity of its call, where
    the claim has one line with the sum of the quantities. *)
Theorem addItem_number_id_makes_two_lines (p : Product.t) (n : Z)
    (q1 q2 : Z) (w : World) (l : list LineItem.t) :
  Product.id p = Some (IdNumber n) ->
  n <> 0 ->
  items (this w) = ArrayOf l ->
  exists item1 item2 : LineItem.t,
    items (this (exec (addItems (Some p) [q1; q2]) w))
    = ArrayOf (l ++ [item1; item2])
    /\ LineItem.id item1 = String_of (IdNumber n)
    /\ LineItem.id item2 = String_of (IdNumber n)
    /\ LineItem.quantity item1 = q1
    /\ LineItem.quantity item2 = q2.
Proof.
  intros Hid Hn H.
  assert (Ht : truthy_id (IdNumber n) = true).
  { simpl. apply negb_true_iff. now apply Z.eqb_neq. }
  pose proof (addItem_number_id_appends p n q1 w l Hid Hn H) as H1.
  pose proof (addItem_number_id_appends p n q2 _ _ Hid Hn H1) as H2.
  set (new q := LineItem.mk (String_of (IdNumber n)) (Product.name p)
                  (Product.price p) q (or_empty (Product.imageUrl p))
                  (or_empty (Product.category p))
                  (opt_or_zero (Product.discount p))) in *.
  exists (new q1), (new q2). split; [| repeat split].
  simpl addItems.
  rewrite (exec_bind _ _ w true)
    by exact (addItem_returns p _ q1 w _ Hid Ht H).
  rewrite (exec_bind _ _ _ true)
    by exact (addItem_returns p _ q2 _ _ Hid Ht H1).
  unfold exec at 1, ret. simpl snd. rewrite H2, <- app_assoc. reflexivity.
Qed.

(** The product with the id 7, added with the quantity 2 and then with the
    quantity 3 to the empty cart: two lines with the id "7". *)
Lemma addItem_number_id_makes_two_lines_witness :
  exists item1 item2 : LineItem.t,
    items (this (exec (addItems (Some numbered) [2; 3]) empty_world))
    = ArrayOf ([] ++ [item1; item2])
    /\ LineItem.id item1 = String_of (IdNumber 7)
    /\ LineItem.id item2 = String_of (IdNumber 7)
    /\ LineItem.quantity item1 = 2
    /\ LineItem.quantity item2 = 3.
Proof.
  apply (addItem_number_id_makes_two_lines numbered 7 2 3 empty_world []).
  - reflexivity.
  - lia.
  - reflexivity.
Defined.

Example addItem_number_id_run :
  items (this (exec (addItems (Some numbered) [2; 3]) empty_world))
  = ArrayOf [line "7" 2; line "7" 3].
Proof. reflexivity. Qed.

(** ** Discount codes (C4) *)

(** C4, on the code: without a code (the empty string, or a value that
    is no string) [applyDiscountCode] leaves the cart and the storage as they
    were and returns [undefined], where the claim has [false]. *)
Theorem applyDiscountCode_without_a_code_returns_undefined (w : World) :
  ShoppingCart.applyDiscountCode (ShoppingCart.CodeString "") w
  = (Normal None, with_shown Enter_a_discount_code warning w)
  /\ ShoppingCart.applyDiscountCode ShoppingCart.NotAString w
     = (Normal None, with_shown Enter_a_discount_code warning w).
Proof. split; reflexivity. Qed.


Example applyDiscountCode_save10 :
  ShoppingCart.applyDiscountCode (ShoppingCart.CodeString "  save10 ")
    discounted_world
  = (Normal (Some true),
     with_shown (Discount_code_applied "SAVE10") success
       (saved discounted_world)).
Proof. reflexivity. Qed.

(** ** The [storage] event (C5) *)

(** C5, on the code: the handler assigns what [loadFromStorage] returns to
    [this.items]. For a stored envelope that is the envelope itself: the
    items of the cart are then no array (the array methods throw), and the
    rate is the one the tab had, where the claim has the stored items and
    the stored rate, which the constructor does make of the same entry. *)
Theorem storage_event_keeps_the_envelope (w : World) (its : value)
    (r : option number) :
  localStorage w = Some (Json (Envelope (Some its) r)) ->
  this (exec (ShoppingCart.on_storage (Some STORAGE_KEY)) w)
  = mkCart (Envelope (Some its) r) (discountRate (this w))
  /\ result ShoppingCart.getItemCount
       (exec (ShoppingCart.on_storage (Some STORAGE_KEY)) w)
     = Throw TypeError
  /\ this (exec ShoppingCart.constructor w) = mkCart its (opt_or_zero r).
Proof.
  intros H.
  assert (E : this (exec (ShoppingCart.on_storage (Some STORAGE_KEY)) w)
              = mkCart (Envelope (Some its) r) (discountRate (this w))).
  { now rewrite on_storage_this, H. }
  split; [exact E | split].
  - unfold result.
    rewrite (getItemCount_throws _ (Some its) r); [reflexivity |].
    now rewrite E.
  - now rewrite constructor_this, H.
Qed.

(** A tab with an empty cart and the rate 0, when another tab has stored a
    cart of one line under the rate 0.15. *)
Lemma storage_event_keeps_the_envelope_witness :
  this (exec (ShoppingCart.on_storage (Some STORAGE_KEY)) other_tab_wrote)
  = mkCart (Envelope (Some (ArrayOf [ten_twice])) (Some 0.15%float))
      (discountRate (this other_tab_wrote))
  /\ result ShoppingCart.getItemCount
       (exec (ShoppingCart.on_storage (Some STORAGE_KEY)) other_tab_wrote)
     = Throw TypeError
  /\ this (exec ShoppingCart.constructor other_tab_wrote)
     = mkCart (ArrayOf [ten_twice]) (opt_or_zero (Some 0.15%float)).
Proof.
  apply (storage_event_keeps_the_envelope other_tab_wrote
           (ArrayOf [ten_twice]) (Some 0.15%float)).
  reflexivity.
Defined.

Example storage_event_run :
  this (exec (ShoppingCart.on_storage (Some STORAGE_KEY)) other_tab_wrote)
  = mkCart (Envelope (Some (ArrayOf [ten_twice])) (Some 0.15%float)) 0%float
  /\ this (exec ShoppingCart.constructor other_tab_wrote)
     = mkCart (ArrayOf [ten_twice]) 0.15%float.
Proof. split; reflexivity. Qed.

(** What the handler does in general: a stored bare array becomes the
    items, everything else that [loadFromStorage] returns too, and the rate
    is never reloaded. *)
Lemma storage_event_reloads_the_items_only (w : World) :
  this (exec (ShoppingCart.on_storage (Some STORAGE_KEY)) w)
  = mkCart
      (match localStorage w with
       | Some (Json (ArrayOf l)) => ArrayOf l
       | Some (Json (Envelope (Some its) r)) => Envelope (Some its) r
       | _ => ArrayOf []
       end)
      (discountRate (this w)).
Proof. apply on_storage_this. Qed.

(** ** What the operations keep *)

Lemma exec_try (m : M unit) (w : World) : exec (try_ m) w = exec m w.
Proof.
  unfold exec, try_. destruct (m w) as [[a | e] w']; reflexivity.
Qed.

Lemma frame_ret {A : Type} (a : A) : frame (ret a).
Proof. intros w. split; reflexivity. Qed.

Lemma frame_throw {A : Type} (e : exn) : frame (@throw A e).
Proof. intros w. split; reflexivity. Qed.

Lemma frame_get : frame get.
Proof. intros w. split; reflexivity. Qed.

Lemma frame_bind {A B : Type} (m : M A) (k : A -> M B) :
  frame m -> (forall a, frame (k a)) -> frame (bind m k).
Proof.
  intros Hm Hk w. specialize (Hm w). unfold exec, bind in *.
  destruct (m w) as [[a | e] w']; simpl in Hm.
  - destruct (Hk a w') as [Hq Hp]. unfold exec in Hq, Hp.
    destruct Hm as [Hq' Hp']. split; congruence.
  - exact Hm.
Qed.

Lemma frame_try (m : M unit) : frame m -> frame (try_ m).
Proof. intros Hm w. rewrite exec_try. apply Hm. Qed.

Lemma frame_set_this (c : Cart) : frame (set_this c).
Proof. intros w. split; reflexivity. Qed.

Lemma frame_setItem (e : entry) : frame (setItem e).
Proof.
  intros w. unfold exec, setItem. destruct (quota_exceeded w) eqn:E; simpl.
  - now split.
  - now split.
Qed.

Lemma frame_showMessage (m : message) (s : severity) :
  frame (ShoppingCart.showMessage m s).
Proof. intros w. split; reflexivity. Qed.

Create HintDb frame.
#[local] Hint Resolve frame_ret frame_throw frame_get frame_set_this
  frame_setItem frame_showMessage frame_try : frame.

Ltac frame_step :=
  match goal with
  | |- frame (bind _ _) => apply frame_bind; [| intros ?]
  | |- frame (match ?x with _ => _ end) => destruct x
  | |- frame (let '(_, _) := ?x in _) => destruct x
  | |- frame (try_ _) => apply frame_try
  | |- frame _ => solve [auto with frame]
  end.

Ltac frame_solve := repeat frame_step.

Lemma frame_set_items (v : value) : frame (set_items v).
Proof. unfold set_items. frame_solve. Qed.

Lemma frame_set_discountRate (r : number) : frame (set_discountRate r).
Proof. unfold set_discountRate. frame_solve. Qed.

Lemma frame_this_items : frame this_items.
Proof. unfold this_items. frame_solve. Qed.

#[local] Hint Resolve frame_set_items frame_set_discountRate
  frame_this_items : frame.

Lemma frame_saveToStorage : frame ShoppingCart.saveToStorage.
Proof. unfold ShoppingCart.saveToStorage. frame_solve. Qed.

Lemma frame_getItemCount : frame ShoppingCart.getItemCount.
Proof. unfold ShoppingCart.getItemCount. frame_solve. Qed.

Lemma frame_getTotals : frame ShoppingCart.getTotals.
Proof. unfold ShoppingCart.getTotals. frame_solve. Qed.

#[local] Hint Resolve frame_saveToStorage frame_getItemCount
  frame_getTotals : frame.

Lemma frame_updateCartBadge : frame ShoppingCart.updateCartBadge.
Proof. unfold ShoppingCart.updateCartBadge. frame_solve. Qed.

Lemma frame_render : frame ShoppingCart.render.
Proof. unfold ShoppingCart.render. frame_solve. Qed.

#[local] Hint Resolve frame_updateCartBadge frame_render : frame.

Lemma frame_addItem (product : option Product.t) (quantity : Z) :
  frame (ShoppingCart.addItem product quantity).
Proof.
  unfold ShoppingCart.addItem, ShoppingCart.playAddSound. frame_solve.
Qed.

Lemma frame_removeItem (productId : string) :
  frame (ShoppingCart.removeItem productId).
Proof. unfold ShoppingCart.removeItem. frame_solve. Qed.

#[local] Hint Resolve frame_addItem frame_removeItem : frame.

Lemma frame_updateQuantity (productId : string) (quantity : Z) :
  frame (ShoppingCart.updateQuantity productId quantity).
Proof. unfold ShoppingCart.updateQuantity. frame_solve. Qed.

Lemma frame_clear (confirmed : bool) : frame (ShoppingCart.clear confirmed).
Proof. unfold ShoppingCart.clear. frame_solve. Qed.

Lemma frame_applyDiscountCode (code : ShoppingCart.code_argument) :
  frame (ShoppingCart.applyDiscountCode code).
Proof. unfold ShoppingCart.applyDiscountCode. frame_solve. Qed.

#[local] Hint Resolve frame_updateQuantity frame_clear
  frame_applyDiscountCode : frame.

Lemma frame_run (op : operation) : frame (run op).
Proof. destruct op; unfold run; frame_solve. Qed.

Lemma run_quota (op : operation) (w : World) :
  quota_exceeded (exec (run op) w) = quota_exceeded w.
Proof. apply frame_run. Qed.

(** An operation leaves the cart and the stored entry as they were, or it
    assigns a cart and saves it. *)
Lemma run_cases (op : operation) (w : World) :
  agree (exec (run op) w) w
  \/ exists c : Cart,
       writes op w c
       /\ this (exec (run op) w) = c
       /\ localStorage (exec (run op) w)
          = if quota_exceeded w then localStorage w
            else Some (Json (Envelope (Some (items c))
                              (Some (discountRate c)))).
Proof.
  assert (P : forall w1 : World,
             localStorage w1 = localStorage w ->
             quota_exceeded w1 = quota_exceeded w ->
             this (persisted w1) = this w1
             /\ localStorage (persisted w1)
                = if quota_exceeded w then localStorage w
                  else Some (Json (Envelope (Some (items (this w1)))
                                    (Some (discountRate (this w1)))))).
  { intros w1 Hs Hq. unfold persisted, saved. rewrite Hq.
    destruct (quota_exceeded w); simpl; auto. }
  destruct (run_agree op w) as [Ht Hs].
  destruct op as [product quantity | productId | productId quantity
                 | confirmed | code]; unfold after in Ht, Hs.
  - destruct (ShoppingCart.product_with_id product) as [[p pid] |] eqn:Hp;
      [| left; now split].
    destruct (items (this w)) as [l | its r] eqn:H; [| left; now split].
    right. eexists. split; [exact (writes_add _ p pid quantity w l Hp H) |].
    rewrite Ht, Hs. now apply P.
  - destruct (items (this w)) as [l | its r] eqn:H; [| left; now split].
    right. eexists. split; [exact (writes_remove productId w l H) |].
    rewrite Ht, Hs. now apply P.
  - destruct (items (this w)) as [l | its r] eqn:H; [| left; now split].
    destruct (find _ l) as [item |] eqn:Hf; [| left; now split].
    right. destruct (Z.leb_spec quantity 0) as [Hq | Hq].
    + eexists. split;
        [exact (writes_update_remove productId quantity w l item H Hf Hq) |].
      rewrite Ht, Hs. now apply P.
    + eexists. split;
        [apply (writes_update productId quantity w l item H Hf); lia |].
      rewrite Ht, Hs. now apply P.
  - destruct confirmed; [| left; now split].
    right. eexists. split; [exact (writes_clear w) |].
    rewrite Ht, Hs. now apply P.
  - destruct code as [[| c s] |]; try (left; now split).
    destruct (ShoppingCart.lookup _ _) as [rate |] eqn:Hl; [| left; now split].
    right. eexists. split;
      [apply (writes_code (String c s) rate w); [discriminate | exact Hl] |].
    rewrite Ht, Hs. now apply P.
Qed.

(** [removeItem] keeps the ids of the lines distinct. *)
Lemma NoDup_removed (productId : string) (l : list LineItem.t) :
  NoDup (map LineItem.id l) -> NoDup (map LineItem.id (removed productId l)).
Proof.
  unfold removed. induction l as [| x l IH]; simpl; intros H; [constructor |].
  inversion H as [| y ys Hx Hl]; subst.
  destruct (negb (String.eqb (LineItem.id x) productId)); simpl;
    [| now apply IH].
  constructor; [| now apply IH].
  intros Hin. apply Hx. apply in_map_iff in Hin.
  destruct Hin as (z & Hz & Hin). apply filter_In in Hin.
  apply in_map_iff. exists z. tauto.
Qed.

Lemma NoDup_added (pid : primitive) (p : Product.t) (quantity : Z)
    (l : list LineItem.t) :
  (forall n, pid <> IdNumber n) ->
  NoDup (map LineItem.id l) ->
  NoDup (map LineItem.id (added pid p quantity l)).
Proof.
  intros Hs Hn. unfold added.
  destruct (find (fun item => strict_equal (LineItem.id item) pid) l) eqn:Hf.
  - now rewrite update_first_ids.
  - destruct pid as [s | n]; [| now destruct (Hs n)].
    rewrite map_app. simpl.
    assert (Ha : ~ In s (map LineItem.id l)) by now apply find_by_id_none.
    apply NoDup_app; [exact Hn | repeat constructor; easy |].
    intros x Hx [<- | []]. contradiction.
Qed.

(** The lines of a cart keep distinct ids under every operation, as long
    as the products that are added have strings for ids. *)
Theorem ids_stay_distinct (ops : list operation) (w : World) :
  Forall string_id ops ->
  NoDup (ids w) ->
  NoDup (ids (fold_left (fun w op => exec (run op) w) ops w)).
Proof.
  intros Hops. revert w.
  induction Hops as [| op ops Hop _ IH]; intros w Hw; simpl; [exact Hw |].
  apply IH. unfold ids in *.
  destruct (run_cases op w) as [[-> _] | (c & Hc & -> & _)]; [exact Hw |].
  inversion Hc as [product p pid quantity w0 l Hp H
                  | productId w0 l H
                  | productId quantity w0 l item H Hf Hq
                  | productId quantity w0 l item H Hf Hq
                  | w0
                  | s rate w0 Hs Hl]; subst; simpl;
    try rewrite H in Hw.
  - apply NoDup_added; [| exact Hw].
    intros n ->. simpl in Hop. destruct product as [p' |]; [| discriminate].
    unfold ShoppingCart.product_with_id in Hp.
    destruct (Product.id p') as [[s | m] |]; try discriminate; try easy.
    now destruct (truthy_id (IdString s)).
  - now apply NoDup_removed.
  - now apply NoDup_removed.
  - now rewrite (update_first_ids _ (fun _ => quantity)).
  - constructor.
  - exact Hw.
Qed.

Lemma ids_stay_distinct_witness :
  NoDup
    (ids (fold_left (fun w op => exec (run op) w)
            [AddItem (Some chips) 1; AddItem (Some chips) 2; RemoveItem "b"]
            empty_world)).
Proof.
  apply (ids_stay_distinct
           [AddItem (Some chips) 1; AddItem (Some chips) 2; RemoveItem "b"]
           empty_world).
  - repeat constructor.
  - constructor.
Defined.

(** Codes never stack: under the operations the rate stays one of 0, 0.10
    and 0.15. *)
Theorem rate_is_never_stacked (ops : list operation) (w : World) :
  known_rate (discountRate (this w)) ->
  known_rate
    (discountRate (this (fold_left (fun w op => exec (run op) w) ops w))).
Proof.
  revert w. induction ops as [| op ops IH]; intros w Hw; simpl; [exact Hw |].
  apply IH.
  destruct (run_cases op w) as [[-> _] | (c & Hc & -> & _)]; [exact Hw |].
  inversion Hc; subst; simpl; try exact Hw.
  match goal with
  | H : ShoppingCart.lookup _ _ = Some _ |- _ =>
      destruct (lookup_codes _ _ H) as [[_ ->] | [_ ->]]
  end; unfold known_rate; auto.
Qed.

Lemma rate_is_never_stacked_witness :
  known_rate
    (discountRate
       (this (fold_left (fun w op => exec (run op) w)
                [ApplyDiscountCode (ShoppingCart.CodeString "SAVE10");
                 ApplyDiscountCode (ShoppingCart.CodeString "save15")]
                empty_world))).
Proof.
  apply (rate_is_never_stacked
           [ApplyDiscountCode (ShoppingCart.CodeString "SAVE10");
            ApplyDiscountCode (ShoppingCart.CodeString "save15")]
           empty_world).
  left. reflexivity.
Defined.

(** No change of the cart goes unsaved: when the storage takes the write,
    an operation leaves the cart and the stored entry as they were, or it
    leaves the stored entry as the envelope of the cart. *)
Theorem every_change_is_saved (op : operation) (w : World) :
  quota_exceeded w = false ->
  (this (exec (run op) w) = this w
   /\ localStorage (exec (run op) w) = localStorage w)
  \/ in_sync (exec (run op) w).
Proof.
  intros Hq. destruct (run_cases op w) as [H | (c & _ & Ht & Hs)];
    [now left | right].
  unfold in_sync. now rewrite Hs, Hq, Ht.
Qed.

Lemma every_change_is_saved_witness :
  (this (exec (run (AddItem (Some chips) 2)) empty_world) = this empty_world
   /\ localStorage (exec (run (AddItem (Some chips) 2)) empty_world)
      = localStorage empty_world)
  \/ in_sync (exec (run (AddItem (Some chips) 2)) empty_world).
Proof.
  apply (every_change_is_saved (AddItem (Some chips) 2) empty_world).
  reflexivity.
Defined.

(** On a cart whose [items] is no array (what a [storage] event leaves
    of a stored envelope), every operation leaves [items] as it is; only
    [clear], once confirmed, makes the items an array again. *)
Theorem only_clear_repairs_the_items (op : operation) (w : World)
    (its : option value) (r : option number) :
  items (this w) = Envelope its r ->
  items (this (exec (run op) w))
  = match op with
    | Clear true => ArrayOf []
    | _ => Envelope its r
    end.
Proof.
  intros H.
  destruct (run_cases op w) as [[Ht _] | (c & Hc & -> & _)].
  - rewrite Ht, H.
    destruct op as [| | | [] |]; try reflexivity.
    exfalso. destruct (run_agree (Clear true) w) as [Ht' _].
    rewrite Ht in Ht'. simpl in Ht'. rewrite persisted_this in Ht'.
    apply (f_equal items) in Ht'. simpl in Ht'. congruence.
  - inversion Hc; subst; simpl; congruence.
Qed.

Lemma only_clear_repairs_the_items_witness :
  items
    (this
       (exec (run (Clear true))
          (exec (ShoppingCart.on_storage (Some STORAGE_KEY)) other_tab_wrote)))
  = ArrayOf [].
Proof.
  apply (only_clear_repairs_the_items (Clear true)
           (exec (ShoppingCart.on_storage (Some STORAGE_KEY)) other_tab_wrote)
           (Some (ArrayOf [ten_twice])) (Some 0.15%float)).
  reflexivity.
Defined.

(** ** The page events *)

Lemma keeps_storage_ret {A : Type} (a : A) : keeps_storage (ret a).
Proof. intros w. reflexivity. Qed.

Lemma keeps_storage_throw {A : Type} (e : exn) : keeps_storage (@throw A e).
Proof. intros w. reflexivity. Qed.

Lemma keeps_storage_get : keeps_storage get.
Proof. intros w. reflexivity. Qed.

Lemma keeps_storage_bind {A B : Type} (m : M A) (k : A -> M B) :
  keeps_storage m -> (forall a, keeps_storage (k a)) ->
  keeps_storage (bind m k).
Proof.
  intros Hm Hk w. specialize (Hm w). unfold exec, bind in *.
  destruct (m w) as [[a | e] w']; simpl in Hm; [| exact Hm].
  specialize (Hk a w'). unfold exec in Hk. congruence.
Qed.

Lemma keeps_storage_set_this (c : Cart) : keeps_storage (set_this c).
Proof. intros w. reflexivity. Qed.

Create HintDb keeps_storage.
#[local] Hint Resolve keeps_storage_ret keeps_storage_throw keeps_storage_get
  keeps_storage_set_this : keeps_storage.

Ltac keeps_storage_step :=
  match goal with
  | |- keeps_storage (bind _ _) => apply keeps_storage_bind; [| intros ?]
  | |- keeps_storage (match ?x with _ => _ end) => destruct x
  | |- keeps_storage (let '(_, _) := ?x in _) => destruct x
  | |- keeps_storage _ => solve [auto with keeps_storage]
  end.

Ltac keeps_storage_solve := repeat keeps_storage_step.

Lemma keeps_storage_set_items (v : value) : keeps_storage (set_items v).
Proof. unfold set_items. keeps_storage_solve. Qed.

Lemma keeps_storage_set_discountRate (r : number) :
  keeps_storage (set_discountRate r).
Proof. unfold set_discountRate. keeps_storage_solve. Qed.

Lemma keeps_storage_this_items : keeps_storage this_items.
Proof. unfold this_items. keeps_storage_solve. Qed.

#[local] Hint Resolve keeps_storage_set_items keeps_storage_set_discountRate
  keeps_storage_this_items : keeps_storage.

Lemma keeps_storage_getItemCount : keeps_storage ShoppingCart.getItemCount.
Proof. unfold ShoppingCart.getItemCount. keeps_storage_solve. Qed.

Lemma keeps_storage_getTotals : keeps_storage ShoppingCart.getTotals.
Proof. unfold ShoppingCart.getTotals. keeps_storage_solve. Qed.

Lemma keeps_storage_loadFromStorage :
  keeps_storage ShoppingCart.loadFromStorage.
Proof. intros w. unfold exec. now rewrite loadFromStorage_run. Qed.

#[local] Hint Resolve keeps_storage_getItemCount keeps_storage_getTotals
  keeps_storage_loadFromStorage : keeps_storage.

Lemma keeps_storage_updateCartBadge :
  keeps_storage ShoppingCart.updateCartBadge.
Proof. unfold ShoppingCart.updateCartBadge. keeps_storage_solve. Qed.

Lemma keeps_storage_render : keeps_storage ShoppingCart.render.
Proof. unfold ShoppingCart.render. keeps_storage_solve. Qed.

#[local] Hint Resolve keeps_storage_updateCartBadge
  keeps_storage_render : keeps_storage.

Lemma keeps_storage_on_storage (key : option string) :
  keeps_storage (ShoppingCart.on_storage key).
Proof. unfold ShoppingCart.on_storage. keeps_storage_solve. Qed.

Lemma keeps_storage_constructor : keeps_storage ShoppingCart.constructor.
Proof.
  unfold ShoppingCart.constructor, ShoppingCart.init. keeps_storage_solve.
Qed.

Lemma qty_decrease_click_run (id : string) (w : World)
    (l : list LineItem.t) :
  items (this w) = ArrayOf l ->
  Controls.qty_decrease_click id w
  = ShoppingCart.updateQuantity id
      (match find (fun it => String.eqb (LineItem.id it) id) l with
       | Some it => LineItem.quantity it
       | None => 1
       end - 1) w.
Proof.
  intros H. unfold Controls.qty_decrease_click.
  unfold bind at 1. unfold this_items, bind at 1, get. now rewrite H.
Qed.

Lemma qty_increase_click_run (id : string) (w : World)
    (l : list LineItem.t) :
  items (this w) = ArrayOf l ->
  Controls.qty_increase_click id w
  = ShoppingCart.updateQuantity id
      (match find (fun it => String.eqb (LineItem.id it) id) l with
       | Some it => LineItem.quantity it
       | None => 0
       end + 1) w.
Proof.
  intros H. unfold Controls.qty_increase_click.
  unfold bind at 1. unfold this_items, bind at 1, get. now rewrite H.
Qed.

Lemma qty_click_throws (id : string) (w : World) its r :
  items (this w) = Envelope its r ->
  Controls.qty_decrease_click id w = (Throw TypeError, w)
  /\ Controls.qty_increase_click id w = (Throw TypeError, w).
Proof.
  intros H. split.
  - unfold Controls.qty_decrease_click.
    unfold bind at 1. unfold this_items, bind at 1, get. now rewrite H.
  - unfold Controls.qty_increase_click.
    unfold bind at 1. unfold this_items, bind at 1, get. now rewrite H.
Qed.

Lemma on_storage_other_key (key : option string) (w : World) :
  key <> Some STORAGE_KEY ->
  ShoppingCart.on_storage key w = (Normal tt, w).
Proof.
  intros H. unfold ShoppingCart.on_storage. destruct key as [k |];
    [| reflexivity].
  destruct (String.eqb_spec k STORAGE_KEY) as [-> | _];
    [contradiction | reflexivity].
Qed.

Lemma option_eq_dec_string (a b : option string) : {a = b} + {a <> b}.
Proof.
  decide equality. apply string_dec.
Qed.

(** What an event does to the cart and to the stored entry: nothing, or
    what an operation does (an [addItem] with the quantity 1), or it loads
    the stored entry as the handler of [storage] or as the constructor
    does. *)
Lemma dispatch_cases (number_equals_string : Z -> string -> bool)
    (e : page_event) (w : World) :
  agree (exec (dispatch number_equals_string e) w) w
  \/ (exists op : operation,
        (forall product q, op = AddItem product q -> q = 1)
        /\ agree (exec (dispatch number_equals_string e) w) (exec (run op) w))
  \/ (localStorage (exec (dispatch number_equals_string e) w) = localStorage w
      /\ this (exec (dispatch number_equals_string e) w)
         = mkCart (loaded (localStorage w)) (discountRate (this w)))
  \/ (localStorage (exec (dispatch number_equals_string e) w) = localStorage w
      /\ this (exec (dispatch number_equals_string e) w)
         = this (exec ShoppingCart.constructor w)).
Proof.
  unfold dispatch. rewrite exec_try.
  destruct e as [id | id | id value | id | codeEl | confirmed
                | products cart modal productId | key |].
  - destruct (items (this w)) as [l | its r] eqn:H.
    + right. left. eexists (UpdateQuantity id _). split; [discriminate |].
      unfold exec, run. rewrite (qty_decrease_click_run id w l H).
      apply agree_refl.
    + left. unfold exec.
      destruct (qty_click_throws id w its r H) as [-> _]. apply agree_refl.
  - destruct (items (this w)) as [l | its r] eqn:H.
    + right. left. eexists (UpdateQuantity id _). split; [discriminate |].
      unfold exec, run. rewrite (qty_increase_click_run id w l H).
      apply agree_refl.
    + left. unfold exec.
      destruct (qty_click_throws id w its r H) as [_ ->]. apply agree_refl.
  - right. left. exists (UpdateQuantity id (quantity_of_input value)).
    split; [discriminate | apply agree_refl].
  - right. left. exists (RemoveItem id).
    split; [discriminate | apply agree_refl].
  - right. left.
    exists (ApplyDiscountCode
              (ShoppingCart.CodeString
                 match codeEl with
                 | Some value => value
                 | None => EmptyString
                 end)).
    split; [discriminate | apply agree_refl].
  - right. left. exists (Clear confirmed).
    split; [discriminate | apply agree_refl].
  - rewrite exec_then_ret. unfold buy_now_click.
    destruct (match products with
              | Some ps =>
                  find (fun p => loose_equal number_equals_string
                                   (Product.id p) productId) ps
              | None => None
              end) as [p |]; [| left; apply agree_refl].
    destruct cart; [| left; apply agree_refl].
    right. left. exists (AddItem (Some p) 1). split.
    + now intros product q [= _ <-].
    + unfold run. rewrite exec_then_ret.
      unfold exec, bind.
      destruct (ShoppingCart.addItem (Some p) 1 w) as [[a | x] w'];
        apply agree_refl.
  - destruct (option_eq_dec_string key (Some STORAGE_KEY)) as [-> | Hk].
    + right. right. left. split.
      * apply keeps_storage_on_storage.
      * apply on_storage_this.
    + left. unfold exec. rewrite (on_storage_other_key key w Hk).
      apply agree_refl.
  - right. right. right. split; [apply keeps_storage_constructor | reflexivity].
Qed.

Lemma all_positive_agree (w1 w2 : World) :
  agree w1 w2 -> all_positive w2 -> all_positive w1.
Proof. unfold all_positive. now intros [-> ->]. Qed.

Lemma all_positive_run (op : operation) (w : World) :
  (forall product q, op = AddItem product q -> 1 <= q) ->
  all_positive w ->
  all_positive (exec (run op) w).
Proof.
  intros Hop [Hc Hs].
  destruct (run_cases op w) as [H | (c & Hw & Ht & Hst)].
  - apply (all_positive_agree _ w H). now split.
  - assert (Hpos : value_positive (items c)).
    { inversion Hw as [product p pid quantity w0 l Hp H
                      | productId w0 l H
                      | productId quantity w0 l item H Hf Hq
                      | productId quantity w0 l item H Hf Hq
                      | w0
                      | s rate w0 Hne Hl]; subst; simpl;
        try (rewrite H in Hc; simpl in Hc).
      - apply Forall_added; [now apply (Hop product) | exact Hc].
      - now apply Forall_removed.
      - now apply Forall_removed.
      - apply Forall_update_first; [| exact Hc]. intros x _. simpl. lia.
      - constructor.
      - exact Hc. }
    unfold all_positive. rewrite Ht, Hst. split; [exact Hpos |].
    destruct (quota_exceeded w); [exact Hs | exact Hpos].
Qed.

Lemma value_positive_loaded (e : option entry) :
  match e with
  | Some (Json v) => value_positive v
  | _ => True
  end ->
  value_positive (loaded e).
Proof.
  destruct e as [[| | | [l | [its |] r]] |]; simpl; auto.
Qed.

(** Through the page no quantity below one comes into the cart or into
    the storage: every event (the buttons and the input of a line, the
    discount and clear buttons, buy-now, a [storage] event, a reload) keeps
    all quantities at one or more. *)
Theorem quantities_stay_positive_on_the_page
    (number_equals_string : Z -> string -> bool) (es : list page_event)
    (w : World) :
  all_positive w ->
  all_positive
    (fold_left (fun w e => exec (dispatch number_equals_string e) w) es w).
Proof.
  revert w. induction es as [| e es IH]; intros w Hw; simpl; [exact Hw |].
  apply IH.
  destruct (dispatch_cases number_equals_string e w)
    as [H | [(op & Hop & H) | [[Hs Ht] | [Hs Ht]]]].
  - exact (all_positive_agree _ w H Hw).
  - apply (all_positive_agree _ _ H). apply all_positive_run; [| exact Hw].
    intros product q E. rewrite (Hop product q E). lia.
  - destruct Hw as [_ Hst]. unfold all_positive. rewrite Hs, Ht. simpl.
    split; [now apply value_positive_loaded | exact Hst].
  - destruct Hw as [_ Hst]. unfold all_positive. rewrite Hs, Ht.
    split; [| exact Hst].
    rewrite constructor_this.
    pose proof (value_positive_loaded _ Hst) as Hl.
    destruct (loaded (localStorage w)) as [l | [its |] r]; simpl in *;
      auto.
Qed.

Lemma quantities_stay_positive_on_the_page_witness :
  all_positive
    (fold_left (fun w e => exec (dispatch (fun _ _ => false) e) w)
       [BuyNow (Some [chips]) true true (Some "a"%string);
        Input "a" "0"; Decrease "a"; Reload]
       empty_world).
Proof.
  apply (quantities_stay_positive_on_the_page (fun _ _ => false)
           [BuyNow (Some [chips]) true true (Some "a"%string);
            Input "a" "0"; Decrease "a"; Reload]
           empty_world).
  split; [constructor | exact I].
Defined.

Lemma constructor_rate_plain (w : World) :
  plain (discountRate (this (exec ShoppingCart.constructor w))).
Proof.
  rewrite constructor_this.
  destruct (loaded (localStorage w)) as [l | [its |] [r |]]; simpl;
    try (now right).
  apply plain_or_zero.
Qed.

Lemma constructor_in_sync (w : World) :
  in_sync w ->
  this (exec ShoppingCart.constructor w)
  = mkCart (items (this w)) (or_zero (discountRate (this w))).
Proof.
  unfold in_sync. intros H. now rewrite constructor_this, H.
Qed.

(** The cart survives a reload: after any operations on an engine whose
    storage takes the writes, a new engine on the same storage has the same
    items and the same rate, if the engine before the operations did and
    the numbers of the cart are ones that JSON carries. *)
Theorem reload_gives_the_cart_back (ops : list operation) (w : World) :
  let w' := fold_left (fun w op => exec (run op) w) ops w in
  quota_exceeded w = false ->
  this (exec ShoppingCart.constructor w) = this w ->
  json_cart (this w') ->
  this (exec ShoppingCart.constructor w') = this w'.
Proof.
  intros w' Hq H0 [_ [_ Hplain]].
  assert (J : forall (ops : list operation) (w : World),
             quota_exceeded w = false ->
             this (exec ShoppingCart.constructor w)
             = mkCart (items (this w)) (or_zero (discountRate (this w))) ->
             let w' := fold_left (fun w op => exec (run op) w) ops w in
             this (exec ShoppingCart.constructor w')
             = mkCart (items (this w')) (or_zero (discountRate (this w')))).
  { clear. induction ops as [| op ops IH]; intros w Hq H; simpl; [exact H |].
    apply IH; [now rewrite run_quota |].
    destruct (run_cases op w) as [[Ht Hs] | (c & _ & Ht & Hs)].
    - rewrite constructor_this, Hs, <- constructor_this, Ht. exact H.
    - rewrite Hq in Hs. rewrite constructor_this, Hs, Ht. reflexivity. }
  specialize (J ops w Hq). fold w' in J.
  rewrite J, (or_zero_plain _ Hplain); [now destruct (this w') |].
  rewrite H0.
  assert (Hp : plain (discountRate (this w))).
  { rewrite <- H0. apply constructor_rate_plain. }
  rewrite (or_zero_plain _ Hp). now destruct (this w).
Qed.

Lemma reload_gives_the_cart_back_witness :
  this
    (exec ShoppingCart.constructor
       (fold_left (fun w op => exec (run op) w)
          [AddItem (Some chips) 2;
           ApplyDiscountCode (ShoppingCart.CodeString "SAVE10");
           UpdateQuantity "a" 5]
          empty_world))
  = this
      (fold_left (fun w op => exec (run op) w)
         [AddItem (Some chips) 2;
          ApplyDiscountCode (ShoppingCart.CodeString "SAVE10");
          UpdateQuantity "a" 5]
         empty_world).
Proof.
  apply (reload_gives_the_cart_back
           [AddItem (Some chips) 2;
            ApplyDiscountCode (ShoppingCart.CodeString "SAVE10");
            UpdateQuantity "a" 5]
           empty_world).
  - reflexivity.
  - reflexivity.
  - repeat split; try reflexivity; try (left; reflexivity).
    constructor; [| constructor].
    repeat split; try reflexivity; left; reflexivity.
Defined.

(** The constructor never throws and never writes to the storage; on a
    storage without an entry, or with an entry that is empty, not JSON, no
    array and no object with [items], the cart starts empty with the rate
    0. *)
Theorem constructor_survives_a_bad_entry (w : World) :
  result ShoppingCart.constructor w = Normal tt
  /\ localStorage (exec ShoppingCart.constructor w) = localStorage w
  /\ match localStorage w with
     | Some (Json (ArrayOf _)) | Some (Json (Envelope (Some _) _)) => True
     | _ =>
         this (exec ShoppingCart.constructor w)
         = mkCart (ArrayOf []) 0%float
     end.
Proof.
  split; [| split].
  - unfold result, ShoppingCart.constructor, ShoppingCart.init, bind, set_this,
      ret.
    cbv beta iota. rewrite loadFromStorage_run. cbn [localStorage].
    destruct (loaded (localStorage w)) as [l | [its |] r]; reflexivity.
  - apply keeps_storage_constructor.
  - rewrite constructor_this.
    destruct (localStorage w) as [[| | | [l | [its |] r]] |]; simpl; auto.
Qed.

(** The handler of the [storage] event never writes to the storage (a
    reload in one tab is no event for the others) and never changes the
    rate; an event for another key, or for the whole storage, changes
    nothing. *)
Theorem storage_event_never_writes (key : option string) (w : World) :
  localStorage (exec (ShoppingCart.on_storage key) w) = localStorage w
  /\ discountRate (this (exec (ShoppingCart.on_storage key) w))
     = discountRate (this w)
  /\ (key <> Some STORAGE_KEY ->
      ShoppingCart.on_storage key w = (Normal tt, w)).
Proof.
  split; [apply keeps_storage_on_storage | split].
  - destruct (option_eq_dec_string key (Some STORAGE_KEY)) as [-> | Hk].
    + now rewrite on_storage_this.
    + unfold exec. now rewrite (on_storage_other_key key w Hk).
  - apply on_storage_other_key.
Qed.

Lemma storage_event_never_writes_witness :
  localStorage (exec (ShoppingCart.on_storage None) other_tab_wrote)
  = localStorage other_tab_wrote
  /\ discountRate (this (exec (ShoppingCart.on_storage None) other_tab_wrote))
     = discountRate (this other_tab_wrote)
  /\ (None <> Some STORAGE_KEY ->
      ShoppingCart.on_storage None other_tab_wrote
      = (Normal tt, other_tab_wrote)).
Proof.
  apply (storage_event_never_writes None other_tab_wrote).
Defined.

(** ** The controls of a line *)

Lemma find_update_first (p : LineItem.t -> bool)
    (f : LineItem.t -> LineItem.t) (l : list LineItem.t) :
  (forall x, p (f x) = p x) ->
  find p (update_first p f l) = option_map f (find p l).
Proof.
  intros Hf. induction l as [| x l IH]; simpl; [reflexivity |].
  destruct (p x) eqn:E; simpl.
  - now rewrite Hf, E.
  - now rewrite E.
Qed.

Lemma update_first_twice (p : LineItem.t -> bool)
    (f g : LineItem.t -> LineItem.t) (l : list LineItem.t) :
  (forall x, p (f x) = p x) ->
  update_first p g (update_first p f l)
  = update_first p (fun x => g (f x)) l.
Proof.
  intros Hf. induction l as [| x l IH]; simpl; [reflexivity |].
  destruct (p x) eqn:E; simpl.
  - now rewrite Hf, E.
  - now rewrite E, IH.
Qed.


Lemma removed_update_first (id : string) (q : Z) (l : list LineItem.t) :
  removed id
    (update_first (fun item => String.eqb (LineItem.id item) id)
       (LineItem.with_quantity q) l)
  = removed id l.
Proof.
  unfold removed. induction l as [| x l IH]; simpl; [reflexivity |].
  destruct (String.eqb (LineItem.id x) id) eqn:E; simpl.
  - now rewrite E.
  - now rewrite E, IH.
Qed.

(** The cart after [updateQuantity], on an array. *)
Lemma updateQuantity_this (id : string) (q : Z) (w : World)
    (l : list LineItem.t) :
  items (this w) = ArrayOf l ->
  this (exec (ShoppingCart.updateQuantity id q) w)
  = mkCart
      (ArrayOf
         match find (fun item => String.eqb (LineItem.id item) id) l with
         | Some _ =>
             if q <=? 0 then removed id l
             else
               update_first (fun item => String.eqb (LineItem.id item) id)
                 (LineItem.with_quantity q) l
         | None => l
         end)
      (discountRate (this w)).
Proof.
  intros H. destruct (run_agree (UpdateQuantity id q) w) as [Ht _].
  unfold run in Ht. rewrite Ht. unfold after. rewrite H.
  destruct (find _ l).
  - destruct (q <=? 0); now rewrite persisted_this.
  - rewrite <- H. now destruct (this w).
Qed.

(** The quantity input never removes a line: whatever its text, the first
    line of that id gets a quantity of at least one, the integer that the
    text begins with if that is one or more and 1 otherwise, and the other
    lines stay. *)
Theorem qty_input_keeps_the_line (id value : string) (w : World)
    (l : list LineItem.t) (item : LineItem.t) :
  items (this w) = ArrayOf l ->
  find (fun item => String.eqb (LineItem.id item) id) l = Some item ->
  quantity_of_input value
  = match parseInt value with
    | Some v => Z.max 1 v
    | None => 1
    end
  /\ exists l1 l2 : list LineItem.t,
       l = l1 ++ item :: l2
       /\ ~ In id (map LineItem.id l1)
       /\ items (this (exec (Controls.qty_input id value) w))
          = ArrayOf
              (l1 ++ LineItem.with_quantity (quantity_of_input value) item
                  :: l2).
Proof.
  intros H Hf.
  assert (Hq : quantity_of_input value
               = match parseInt value with
                 | Some v => Z.max 1 v
                 | None => 1
                 end).
  { unfold quantity_of_input. destruct (parseInt value) as [v |]; [| easy].
    destruct (Z.ltb_spec v 1); lia. }
  split; [exact Hq |].
  assert (Hpos : 1 <= quantity_of_input value).
  { rewrite Hq. destruct (parseInt value); lia. }
  destruct (update_first_split _
              (LineItem.with_quantity (quantity_of_input value)) l item Hf)
    as (l1 & l2 & Hl & Hl1 & Hu).
  exists l1, l2. split; [exact Hl | split].
  - now apply find_by_id_none, find_none_absent.
  - unfold Controls.qty_input. rewrite (updateQuantity_this _ _ w l H), Hf.
    simpl. destruct (Z.leb_spec (quantity_of_input value) 0); [lia |].
    now rewrite Hu.
Qed.

Lemma qty_input_keeps_the_line_witness :
  quantity_of_input "-3"
  = match parseInt "-3" with
    | Some v => Z.max 1 v
    | None => 1
    end
  /\ exists l1 l2 : list LineItem.t,
       [ten_twice] = l1 ++ ten_twice :: l2
       /\ ~ In "a"%string (map LineItem.id l1)
       /\ items (this (exec (Controls.qty_input "a" "-3") discounted_world))
          = ArrayOf
              (l1 ++ LineItem.with_quantity (quantity_of_input "-3") ten_twice
                  :: l2).
Proof.
  apply (qty_input_keeps_the_line "a" "-3" discounted_world [ten_twice]
           ten_twice); reflexivity.
Defined.

(** The minus button takes one off the quantity of the first line of its
    id, and removes every line of that id when that quantity is one (or
    less). *)
Theorem qty_decrease_click_steps (id : string) (w : World)
    (l : list LineItem.t) (item : LineItem.t) :
  items (this w) = ArrayOf l ->
  find (fun item => String.eqb (LineItem.id item) id) l = Some item ->
  (LineItem.quantity item <= 1 ->
   items (this (exec (Controls.qty_decrease_click id) w))
   = ArrayOf (removed id l)
   /\ ~ In id (map LineItem.id (removed id l)))
  /\ (2 <= LineItem.quantity item ->
      exists l1 l2 : list LineItem.t,
        l = l1 ++ item :: l2
        /\ ~ In id (map LineItem.id l1)
        /\ items (this (exec (Controls.qty_decrease_click id) w))
           = ArrayOf
               (l1 ++ LineItem.with_quantity (LineItem.quantity item - 1) item
                   :: l2)).
Proof.
  intros H Hf.
  assert (E : items (this (exec (Controls.qty_decrease_click id) w))
              = ArrayOf
                  (if LineItem.quantity item - 1 <=? 0 then removed id l
                   else
                     update_first
                       (fun item => String.eqb (LineItem.id item) id)
                       (LineItem.with_quantity (LineItem.quantity item - 1))
                       l)).
  { unfold exec. rewrite (qty_decrease_click_run id w l H), Hf.
    fold (exec (ShoppingCart.updateQuantity id (LineItem.quantity item - 1)) w).
    now rewrite (updateQuantity_this _ _ w l H), Hf. }
  split; intros Hq.
  - split; [| apply removed_has_no_such_id].
    rewrite E. now destruct (Z.leb_spec (LineItem.quantity item - 1) 0); [| lia].
  - destruct (update_first_split _
                (LineItem.with_quantity (LineItem.quantity item - 1)) l item
                Hf)
      as (l1 & l2 & Hl & Hl1 & Hu).
    exists l1, l2. split; [exact Hl | split].
    + now apply find_by_id_none, find_none_absent.
    + rewrite E.
      destruct (Z.leb_spec (LineItem.quantity item - 1) 0); [lia |].
      now rewrite Hu.
Qed.

Lemma qty_decrease_click_steps_witness :
  (LineItem.quantity ten_twice <= 1 ->
   items (this (exec (Controls.qty_decrease_click "a") discounted_world))
   = ArrayOf (removed "a" [ten_twice])
   /\ ~ In "a"%string (map LineItem.id (removed "a" [ten_twice])))
  /\ (2 <= LineItem.quantity ten_twice ->
      exists l1 l2 : list LineItem.t,
        [ten_twice] = l1 ++ ten_twice :: l2
        /\ ~ In "a"%string (map LineItem.id l1)
        /\ items (this (exec (Controls.qty_decrease_click "a")
                          discounted_world))
           = ArrayOf
               (l1 ++ LineItem.with_quantity
                        (LineItem.quantity ten_twice - 1) ten_twice
                   :: l2)).
Proof.
  apply (qty_decrease_click_steps "a" discounted_world [ten_twice] ten_twice);
    reflexivity.
Defined.



(** ** [debounce], the checkout guard, the badge and buy-now *)

Lemma debounce_calls {A : Type} (fn : A -> M unit) (vs : list A) :
  forall (t : option A) (rest : list (Debounce.event A)) (w : World),
    Debounce.run fn t (map Debounce.Call vs ++ rest) w
    = Debounce.run fn (fold_left (fun _ v => Some v) vs t) rest w.
Proof.
  induction vs as [| v vs IH]; intros t rest w; [reflexivity |].
  simpl map. simpl app. simpl Debounce.run. unfold bind, ret.
  now rewrite IH.
Qed.

(** A debounced function does not run while the calls keep coming, and
    when the timer elapses after them it runs once, on the arguments of the
    last call. *)
Theorem debounce_runs_once_on_the_last_call {A : Type} (fn : A -> M unit)
    (t : option A) (vs : list A) (v : A) (w : World) :
  Debounce.run fn t (map Debounce.Call (vs ++ [v])) w = (Normal (Some v), w)
  /\ Debounce.run fn t (map Debounce.Call (vs ++ [v]) ++ [Debounce.Elapse]) w
     = (try_ (fn v) ;; ret None) w.
Proof.
  assert (L : fold_left (fun _ v => Some v) (vs ++ [v]) t = Some v)
    by now rewrite fold_left_app.
  split.
  - rewrite <- (app_nil_r (map Debounce.Call (vs ++ [v]))).
    rewrite debounce_calls, L. reflexivity.
  - rewrite debounce_calls, L. simpl. unfold bind, ret.
    destruct (try_ (fn v) w) as [[[] | e] w']; reflexivity.
Qed.

(** [proceedToCheckout] changes nothing of the world. It opens the
    payment modal exactly when the items are not the empty array, a user
    with an id is there and the page has the function; on the empty array
    it only warns; and it asks for the login only without such a user. *)
Theorem proceedToCheckout_guards (win : Window) (w : World) :
  exists calls : list call,
    proceedToCheckout win w = (Normal calls, w)
    /\ (In open_payment_modal calls
        <-> items (this w) <> ArrayOf []
            /\ authenticated win = true
            /\ openPaymentModal win = true)
    /\ (items (this w) = ArrayOf [] -> calls = [show_cart_is_empty])
    /\ (In show_please_log_in calls
        <-> items (this w) <> ArrayOf [] /\ authenticated win = false).
Proof.
  unfold proceedToCheckout, bind, get, ret.
  destruct (items (this w)) as [[| x l] | its r] eqn:H;
    destruct (authenticated win) eqn:Ha; simpl;
    destruct (closeModal win), (openPaymentModal win), (openModal win);
    simpl; eexists; (split; [reflexivity |]);
    repeat split; intros; simpl in *;
    repeat match goal with
           | H : _ \/ _ |- _ => destruct H
           | H : _ /\ _ |- _ => destruct H
           | H : False |- _ => destruct H
           end;
    try discriminate; try congruence; auto.
Qed.

Lemma fold_left_add_from (xs : list Z) :
  forall a : Z, fold_left Z.add xs a = a + fold_left Z.add xs 0.
Proof.
  induction xs as [| x xs IH]; intros a; simpl; [lia |].
  rewrite (IH (a + x)), (IH x). lia.
Qed.

Lemma sum_quantities_cons (x : LineItem.t) (l : list LineItem.t) :
  sum_quantities (x :: l) = LineItem.quantity x + sum_quantities l.
Proof.
  unfold sum_quantities. simpl. apply fold_left_add_from.
Qed.

Lemma sum_quantities_positive (l : list LineItem.t) :
  Forall (fun item => 1 <= LineItem.quantity item) l ->
  Z.of_nat (List.length l) <= sum_quantities l.
Proof.
  induction 1 as [| x l Hx _ IH]; [reflexivity |].
  rewrite sum_quantities_cons. simpl List.length. lia.
Qed.

(** On a cart whose quantities are all one or more, the badge shows the
    sum of the quantities, which is at least the number of lines, and it is
    displayed exactly when the cart has a line. *)
Theorem badge_shows_a_cart_with_lines (w : World) (l : list LineItem.t) :
  items (this w) = ArrayOf l ->
  cart_count (page w) = true ->
  Forall (fun item => 1 <= LineItem.quantity item) l ->
  exists (count : Z) (displayed : bool),
    badge w = (Normal (Some (count, displayed)), w)
    /\ count = sum_quantities l
    /\ Z.of_nat (List.length l) <= count
    /\ (displayed = true <-> l <> []).
Proof.
  intros H Hb Hl. unfold badge, bind, get. rewrite Hb.
  rewrite (getItemCount_run w l H). unfold ret.
  do 2 eexists. split; [reflexivity |]. split; [reflexivity |].
  pose proof (sum_quantities_positive l Hl) as Hs.
  split; [exact Hs |].
  destruct l as [| x l']; simpl in *.
  - split; [discriminate | congruence].
  - split; [discriminate | intros _; apply Z.ltb_lt; lia].
Qed.

Lemma badge_shows_a_cart_with_lines_witness :
  exists (count : Z) (displayed : bool),
    badge discounted_world = (Normal (Some (count, displayed)), discounted_world)
    /\ count = sum_quantities [ten_twice]
    /\ Z.of_nat (List.length [ten_twice]) <= count
    /\ (displayed = true <-> [ten_twice] <> []).
Proof.
  apply (badge_shows_a_cart_with_lines discounted_world [ten_twice]).
  - reflexivity.
  - reflexivity.
  - repeat constructor. simpl. lia.
Defined.

(** Without a catalogue, without an engine or without a product whose id
    equals the id of the button, the buy-now button does nothing. *)
Theorem buy_now_click_without_a_product
    (number_equals_string : Z -> string -> bool)
    (products : option (list Product.t)) (cart modal : bool)
    (productId : option string) (w : World) :
  products = None
  \/ cart = false
  \/ (exists ps : list Product.t,
        products = Some ps
        /\ Forall
             (fun p => loose_equal number_equals_string (Product.id p)
                         productId = false) ps) ->
  buy_now_click number_equals_string products cart modal productId w
  = (Normal [], w).
Proof.
  unfold buy_now_click. intros [-> | [-> | (ps & -> & Hps)]].
  - reflexivity.
  - now destruct (match products with Some _ => _ | None => _ end).
  - assert (Hf : find (fun p => loose_equal number_equals_string
                                  (Product.id p) productId) ps = None).
    { induction Hps as [| p ps Hp _ IH]; simpl; [reflexivity |].
      now rewrite Hp. }
    now rewrite Hf.
Qed.

Lemma buy_now_click_without_a_product_witness :
  buy_now_click (fun _ _ => false) (Some [numbered]) true true
    (Some "a"%string) empty_world
  = (Normal [], empty_world).
Proof.
  apply (buy_now_click_without_a_product (fun _ _ => false)
           (Some [numbered]) true true (Some "a"%string) empty_world).
  right. right. exists [numbered]. split; [reflexivity |].
  repeat constructor.
Defined.

Lemma fold_left_add_ones (n : nat) (a : Z) :
  fold_left Z.add (repeat 1 n) a = a + Z.of_nat n.
Proof.
  revert a. induction n as [| n IH]; intros a; [simpl; lia |].
  cbn [repeat fold_left]. rewrite IH. lia.
Qed.

Lemma buy_now_clicks_are_addItems
    (number_equals_string : Z -> string -> bool) (ps : list Product.t)
    (p : Product.t) (pid : primitive) (modal : bool) (s : string) (n : nat) :
  find (fun p => loose_equal number_equals_string (Product.id p) (Some s)) ps
  = Some p ->
  Product.id p = Some pid ->
  truthy_id pid = true ->
  forall (w : World) (l : list LineItem.t),
    items (this w) = ArrayOf l ->
    exec (times n
            (buy_now_click number_equals_string (Some ps) true modal (Some s)
             ;; ret tt)) w
    = exec (addItems (Some p) (repeat 1 n)) w.
Proof.
  intros Hf Hid Ht. induction n as [| n IH]; intros w l H; [reflexivity |].
  cbn [times repeat addItems].
  pose proof (addItem_returns p pid 1 w l Hid Ht H) as Hr.
  pose proof (addItem_items p pid 1 w l Hid Ht H) as Hi.
  rewrite (exec_bind _ _ w true Hr).
  assert (Hc : result (buy_now_click number_equals_string (Some ps) true modal
                         (Some s) ;; ret tt) w = Normal tt
               /\ exec (buy_now_click number_equals_string (Some ps) true modal
                          (Some s) ;; ret tt) w
                  = exec (ShoppingCart.addItem (Some p) 1) w).
  { unfold buy_now_click. rewrite Hf. unfold result, exec, bind, ret in *.
    destruct (ShoppingCart.addItem (Some p) 1 w) as [[a | e] w'];
      simpl in *; [auto | discriminate]. }
  destruct Hc as [Hc1 Hc2].
  rewrite (exec_bind _ _ w tt Hc1), Hc2.
  exact (IH _ _ Hi).
Qed.

(** Buy-now adds one each time: when the product that the button finds has
    the non-empty string [s] for its id and the cart has no line of that
    id, [n + 1] clicks leave one more line, of the id [s] and the quantity
    [n + 1]. *)
Theorem buy_now_click_adds_one_each_time
    (number_equals_string : Z -> string -> bool) (ps : list Product.t)
    (p : Product.t) (modal : bool) (s : string) (n : nat) (w : World)
    (l : list LineItem.t) :
  find (fun p => loose_equal number_equals_string (Product.id p) (Some s)) ps
  = Some p ->
  Product.id p = Some (IdString s) ->
  s <> EmptyString ->
  items (this w) = ArrayOf l ->
  ~ In s (map LineItem.id l) ->
  exists item : LineItem.t,
    items
      (this
         (exec (times (S n)
                  (buy_now_click number_equals_string (Some ps) true modal
                     (Some s) ;; ret tt)) w))
    = ArrayOf (l ++ [item])
    /\ LineItem.id item = s
    /\ LineItem.quantity item = Z.of_nat (S n).
Proof.
  intros Hf Hid Hs H Hl.
  assert (Ht : truthy_id (IdString s) = true).
  { simpl. apply negb_true_iff. now apply String.eqb_neq. }
  rewrite (buy_now_clicks_are_addItems number_equals_string ps p (IdString s)
             modal s (S n) Hf Hid Ht w l H).
  destruct (addItems_string_id p s 1 (repeat 1 n) w l Hid Hs H Hl)
    as (item & Hi & Hid' & Hq).
  exists item. split; [exact Hi | split; [exact Hid' |]].
  rewrite Hq, fold_left_add_ones. lia.
Qed.

Lemma buy_now_click_adds_one_each_time_witness :
  exists item : LineItem.t,
    items
      (this
         (exec (times 3
                  (buy_now_click (fun _ _ => false) (Some [numbered; chips])
                     true true (Some "a"%string) ;; ret tt)) empty_world))
    = ArrayOf ([] ++ [item])
    /\ LineItem.id item = "a"%string
    /\ LineItem.quantity item = Z.of_nat 3.
Proof.
  apply (buy_now_click_adds_one_each_time (fun _ _ => false)
           [numbered; chips] chips true "a" 2 empty_world []).
  - reflexivity.
  - reflexivity.
  - discriminate.
  - reflexivity.
  - intros [].
Defined.

(** ** How the operations compose *)

(** [removeItem] undoes [addItem]: after a product whose id was not in the
    cart is added, in whatever quantity, removing [String(id)] leaves the
    items as they were. *)
Theorem removeItem_undoes_addItem (p : Product.t) (pid : primitive)
    (quantity : Z) (w : World) (l : list LineItem.t) :
  Product.id p = Some pid ->
  truthy_id pid = true ->
  items (this w) = ArrayOf l ->
  ~ In (String_of pid) (map LineItem.id l) ->
  items
    (this (exec (ShoppingCart.removeItem (String_of pid))
             (exec (ShoppingCart.addItem (Some p) quantity) w)))
  = ArrayOf l.
Proof.
  intros Hid Ht H Hl.
  pose proof (addItem_items p pid quantity w l Hid Ht H) as Hi.
  destruct (removeItem_agree (String_of pid) _ _ Hi) as [-> _].
  rewrite persisted_this. simpl. f_equal.
  assert (Hf : find (fun item => strict_equal (LineItem.id item) pid) l = None).
  { destruct pid as [s | n]; simpl.
    - now apply find_by_id_none.
    - apply find_none_absent, Forall_forall. reflexivity. }
  unfold added. rewrite Hf. unfold removed. rewrite filter_app. simpl.
  rewrite String.eqb_refl. simpl. rewrite app_nil_r.
  apply (filter_absent
           (fun item => String.eqb (LineItem.id item) (String_of pid))).
  now apply find_none_absent, find_by_id_none.
Qed.

Lemma removeItem_undoes_addItem_witness :
  items
    (this (exec (ShoppingCart.removeItem (String_of (IdNumber 7)))
             (exec (ShoppingCart.addItem (Some numbered) 4) discounted_world)))
  = ArrayOf [ten_twice].
Proof.
  apply (removeItem_undoes_addItem numbered (IdNumber 7) 4 discounted_world
           [ten_twice]).
  - reflexivity.
  - reflexivity.
  - reflexivity.
  - simpl. intros [H | []]. discriminate.
Defined.

(** [updateQuantity] sets, it does not add: after a first call with a
    quantity of one or more on an id that is in the cart, a second call on
    the same id leaves the cart that it alone would have left. *)
Theorem updateQuantity_last_call_wins (id : string) (q1 q2 : Z) (w : World)
    (l : list LineItem.t) (item : LineItem.t) :
  items (this w) = ArrayOf l ->
  find (fun item => String.eqb (LineItem.id item) id) l = Some item ->
  1 <= q1 ->
  this (exec (ShoppingCart.updateQuantity id q2)
          (exec (ShoppingCart.updateQuantity id q1) w))
  = this (exec (ShoppingCart.updateQuantity id q2) w).
Proof.
  intros H Hf Hq.
  set (p := fun item : LineItem.t => String.eqb (LineItem.id item) id) in *.
  assert (Hp : forall q x, p (LineItem.with_quantity q x) = p x)
    by reflexivity.
  set (w1 := exec (ShoppingCart.updateQuantity id q1) w).
  assert (H1 : this w1
               = mkCart (ArrayOf (update_first p (LineItem.with_quantity q1) l))
                   (discountRate (this w))).
  { subst w1. rewrite (updateQuantity_this id q1 w l H). fold p. rewrite Hf.
    now destruct (Z.leb_spec q1 0); [lia |]. }
  rewrite (updateQuantity_this id q2 w1 _ (f_equal items H1)). fold p.
  rewrite (updateQuantity_this id q2 w l H). fold p.
  rewrite (find_update_first p _ l (Hp _)), Hf, H1. simpl.
  destruct (q2 <=? 0).
  - unfold p. now rewrite removed_update_first.
  - now rewrite (update_first_twice p _ _ l (Hp _)).
Qed.

Lemma updateQuantity_last_call_wins_witness :
  this (exec (ShoppingCart.updateQuantity "a" 7)
          (exec (ShoppingCart.updateQuantity "a" 3) discounted_world))
  = this (exec (ShoppingCart.updateQuantity "a" 7) discounted_world).
Proof.
  apply (updateQuantity_last_call_wins "a" 3 7 discounted_world [ten_twice]
           ten_twice).
  - reflexivity.
  - reflexivity.
  - lia.
Defined.

(** ** The tax is never negative *)

Lemma binary_round_aux_not_negative (mx ex : Z) (lx : location) :
  SFltb (binary_round_aux prec emax false mx ex lx) (S754_zero false) = false.
Proof.
  unfold binary_round_aux.
  destruct (shr_fexp prec emax mx ex lx) as [mrs' e'].
  destruct (shr_fexp prec emax _ e' loc_Exact) as [mrs'' e''].
  destruct (shr_m mrs''); [reflexivity | | reflexivity].
  destruct (Z.leb e'' (emax - prec)); reflexivity.
Qed.

Lemma mul_not_negative (a y : float) (m : positive) (e : Z) :
  PrimFloat.ltb a 0%float = false ->
  Prim2SF y = S754_finite false m e ->
  PrimFloat.ltb (a * y)%float 0%float = false.
Proof.
  rewrite !ltb_spec, mul_spec. intros Ha ->.
  change (Prim2SF 0%float) with (S754_zero false) in *.
  unfold SF64mul, SFmul.
  destruct (Prim2SF a) as [s | s | | s m' e']; try reflexivity;
    destruct s; try discriminate; try reflexivity.
  apply binary_round_aux_not_negative.
Qed.

Lemma Math_max_zero_not_negative (x : float) :
  PrimFloat.ltb (Math_max 0%float x) 0%float = false.
Proof.
  unfold Math_max.
  destruct (PrimFloat.is_nan 0%float || PrimFloat.is_nan x); [reflexivity |].
  destruct (PrimFloat.ltb 0%float x) eqn:E.
  - rewrite ltb_spec in *.
    change (Prim2SF 0%float) with (S754_zero false) in *.
    destruct (Prim2SF x) as [s | s | | s m e]; try discriminate;
      destruct s; try discriminate; reflexivity.
  - destruct (PrimFloat.ltb x 0%float); reflexivity.
Qed.

(** Whatever the prices, the discounts and the rate are, the tax that
    [getTotals] returns is not below zero: it is a tenth of a base that
    [Math.max] keeps at zero or above (or it is NaN). *)
Theorem tax_is_never_negative (w : World) (l : list LineItem.t) :
  items (this w) = ArrayOf l ->
  exists t : Totals.t,
    result ShoppingCart.getTotals w = Normal t
    /\ PrimFloat.ltb (Totals.tax t) 0%float = false
    /\ Totals.total t = (Totals.discountedSubtotal t + Totals.tax t)%float.
Proof.
  intros H. unfold result. rewrite (getTotals_run w l H). simpl.
  eexists. split; [reflexivity |]. split; [| reflexivity].
  unfold totals_of. cbn [Totals.tax].
  eapply mul_not_negative.
  - apply Math_max_zero_not_negative.
  - vm_compute. reflexivity.
Qed.

Lemma tax_is_never_negative_witness :
  exists t : Totals.t,
    result ShoppingCart.getTotals discounted_world = Normal t
    /\ PrimFloat.ltb (Totals.tax t) 0%float = false
    /\ Totals.total t = (Totals.discountedSubtotal t + Totals.tax t)%float.
Proof.
  apply (tax_is_never_negative discounted_world [ten_twice]). reflexivity.
Defined.

(** ** The quantity input reads its own text *)







(** ** [addItem] on a product that has a line *)

(** For a product whose id is a non-empty string and that has a line:
    [addItem] adds the quantity to the first line of that id, where it
    stands, and takes nothing else from the product: the name, the price
    and the discount of the line stay, and no line is added. *)
Theorem addItem_on_a_line_changes_only_its_quantity (p : Product.t)
    (s : string) (q : Z) (w : World) (l : list LineItem.t)
    (item : LineItem.t) :
  Product.id p = Some (IdString s) ->
  s <> EmptyString ->
  items (this w) = ArrayOf l ->
  find (fun item => String.eqb (LineItem.id item) s) l = Some item ->
  exists l1 l2 : list LineItem.t,
    l = l1 ++ item :: l2
    /\ ~ In s (map LineItem.id l1)
    /\ items (this (exec (ShoppingCart.addItem (Some p) q) w))
       = ArrayOf
           (l1
            ++ LineItem.with_quantity (LineItem.quantity item + q) item
            :: l2).
Proof.
  intros Hid Hs H Hf.
  assert (Ht : truthy_id (IdString s) = true).
  { simpl. apply negb_true_iff. now apply String.eqb_neq. }
  destruct (update_first_split _
              (fun item =>
                 LineItem.with_quantity (LineItem.quantity item + q) item)
              l item Hf)
    as (l1 & l2 & Hl & Hl1 & Hu).
  exists l1, l2. split; [exact Hl | split].
  - now apply find_by_id_none, find_none_absent.
  - rewrite (addItem_items p _ q w l Hid Ht H). unfold added.
    cbn [strict_equal]. now rewrite Hf, Hu.
Qed.

Lemma addItem_on_a_line_changes_only_its_quantity_witness :
  exists l1 l2 : list LineItem.t,
    [ten_twice] = l1 ++ ten_twice :: l2
    /\ ~ In "a"%string (map LineItem.id l1)
    /\ items
         (this
            (exec
               (ShoppingCart.addItem
                  (Some
                     (Product.mk (Some (IdString "a")) (Some "Crisps"%string)
                        12%float None None None)) 3)
               discounted_world))
       = ArrayOf
           (l1
            ++ LineItem.with_quantity (LineItem.quantity ten_twice + 3)
                 ten_twice
            :: l2).
Proof.
  apply (addItem_on_a_line_changes_only_its_quantity
           (Product.mk (Some (IdString "a")) (Some "Crisps"%string)
              12%float None None None)
           "a" 3 discounted_world [ten_twice] ten_twice);
    [reflexivity | discriminate | reflexivity | reflexivity].
Defined.

(** ** [clear] *)

(** [clear()] empties the lines and keeps the discount rate: a code that
    was applied still holds for what is added next, and the entry that is
    stored carries it. It completes normally whatever [items] holds. When
    the user declines, nothing at all happens. *)
Theorem clear_keeps_the_discount (w : World) :
  result (ShoppingCart.clear true) w = Normal tt
  /\ this (exec (ShoppingCart.clear true) w)
     = mkCart (ArrayOf []) (discountRate (this w))
  /\ localStorage (exec (ShoppingCart.clear true) w)
     = (if quota_exceeded w then localStorage w
        else Some (Json (Envelope (Some (ArrayOf []))
                           (Some (discountRate (this w))))))
  /\ ShoppingCart.clear false w = (Normal tt, w).
Proof.
  unfold result, exec. rewrite clear_run.
  unfold persisted, with_items, saved. simpl.
  destruct (quota_exceeded w); repeat split; reflexivity.
Qed.

(** ** Witnesses of the facts about codes and totals *)


Lemma getTotals_after_operations_witness :
  result ShoppingCart.getTotals
    (fold_left (fun w op => exec (run op) w)
       [AddItem (Some chips) 2;
        ApplyDiscountCode (ShoppingCart.CodeString "SAVE10")]
       empty_world)
  = Normal
      (totals_of [line "a" 2]
         (discountRate
            (this
               (fold_left (fun w op => exec (run op) w)
                  [AddItem (Some chips) 2;
                   ApplyDiscountCode (ShoppingCart.CodeString "SAVE10")]
                  empty_world)))).
Proof.
  apply (getTotals_after_operations
           [AddItem (Some chips) 2;
            ApplyDiscountCode (ShoppingCart.CodeString "SAVE10")]
           [line "a" 2]).
  reflexivity.
Defined.
